(** * Code execution backend: sandboxManager.js and the job routes

    A shallow embedding of [src/sandbox/sandboxManager.js] (output
    formatting, scenario injection, proxy provisioning, [runJob]) and of the
    job router (the in-memory job store, the asynchronous lifecycle of a
    job, cancel and the periodic sweep), with the properties the
    specification states about them. *)

From Stdlib Require Import ZArith NArith QArith List Bool Ascii String.
From Stdlib Require DecimalString.
From stdpp Require Import base option list gmap.

Local Open Scope Z_scope.

(** ** JavaScript strings

    A JavaScript string is a sequence of UTF-16 code units; a code unit is
    kept as its number. *)

Abbreviation jsstring := (list N).

(** A literal of the source.  Two characters that cannot be written in a
    literal here are spelled differently: [~] stands for the line feed
    ([\n]) and [^] for the double quote. *)
Definition unit_of_ascii (a : ascii) : N :=
  match N_of_ascii a with
  | 126%N => 10%N
  | 94%N => 34%N
  | n => n
  end.

Definition js (s : string) : jsstring :=
  List.map unit_of_ascii (list_ascii_of_string s).

(** [`${n}`] for an integer [n]. *)
Definition intText (n : Z) : jsstring :=
  js (DecimalString.NilZero.string_of_int (Z.to_int n)).

(** [s.startsWith(p)], the test behind every literal pattern below. *)
Fixpoint startsWith (s p : jsstring) {struct p} : bool :=
  match p, s with
  | [], _ => true
  | _ :: _, [] => false
  | a :: p', b :: s' => (a =? b)%N && startsWith s' p'
  end.

(** [s.includes(sub)]. *)
Fixpoint includes (s sub : jsstring) : bool :=
  startsWith s sub ||
  match s with
  | [] => false
  | _ :: s' => includes s' sub
  end.

(** [s.indexOf(sub)]: the first position where [sub] starts, [-1] when
    there is none. *)
Fixpoint indexOf (s sub : jsstring) : Z :=
  if startsWith s sub then 0
  else match s with
       | [] => -1
       | _ :: s' => let i := indexOf s' sub in if i <? 0 then -1 else i + 1
       end.

(** [s.substring(a)] and [s.substring(0, b)]; an index below zero counts
    as zero and one past the end as the length. *)
Definition substringFrom (s : jsstring) (a : Z) : jsstring := drop (Z.to_nat a) s.
Definition substringTo (s : jsstring) (b : Z) : jsstring := take (Z.to_nat b) s.

(** [lines.join(sep)]. *)
Fixpoint join (sep : jsstring) (l : list jsstring) : jsstring :=
  match l with
  | [] => []
  | [x] => x
  | x :: rest => x ++ sep ++ join sep rest
  end.

(** [s.replace(pat, rep)] with a string pattern: the first occurrence only. *)
Fixpoint replaceFirst (pat rep s : jsstring) : jsstring :=
  if startsWith s pat then rep ++ drop (length pat) s
  else match s with
       | [] => []
       | c :: s' => c :: replaceFirst pat rep s'
       end.

(** The line terminators of ECMAScript: what [.] does not match and what
    [$] stops at under the [m] flag. *)
Definition isLineTerminator (c : N) : bool :=
  ((c =? 10) || (c =? 13) || (c =? 8232) || (c =? 8233))%N.

(** White space as [String.prototype.trim] strips it: the WhiteSpace and
    LineTerminator code points. *)
Definition isWhiteSpace (c : N) : bool :=
  (isLineTerminator c
   || (c =? 9) || (c =? 11) || (c =? 12) || (c =? 32) || (c =? 160)
   || (c =? 5760) || ((8192 <=? c) && (c <=? 8202))
   || (c =? 8239) || (c =? 8287) || (c =? 12288) || (c =? 65279))%N.

Fixpoint trimStart (s : jsstring) : jsstring :=
  match s with
  | [] => []
  | c :: s' => if isWhiteSpace c then trimStart s' else s
  end.

Fixpoint trimEnd (s : jsstring) : jsstring :=
  match s with
  | [] => []
  | c :: s' =>
      match trimEnd s' with
      | [] => if isWhiteSpace c then [] else [c]
      | r => c :: r
      end
  end.

Definition trim (s : jsstring) : jsstring := trimEnd (trimStart s).

(** ** Regular expressions of [formatOutput]

    The two regular expressions with a literal head are embedded as
    matchers anchored at the head of the text: the length of the match
    there, if there is one.  [.*] takes the rest of the line. *)

Fixpoint restOfLine (s : jsstring) : jsstring :=
  match s with
  | [] => []
  | c :: s' => if isLineTerminator c then [] else c :: restOfLine s'
  end.

(** [s.replace(re, '')] for a [g] regular expression: matches are found
    left to right, the search resuming where the last match ended.
    [skip] counts the code units of the current match still to drop. *)
Fixpoint removeMatches (matchAt : jsstring -> option nat) (skip : nat)
    (s : jsstring) : jsstring :=
  match s with
  | [] => []
  | c :: s' =>
      match skip with
      | S k => removeMatches matchAt k s'
      | O =>
          match matchAt s with
          | Some (S k) => removeMatches matchAt k s'
          | _ => c :: removeMatches matchAt 0 s'
          end
      end
  end.

(** [s.match(re)] for a [g] regular expression: the matched texts, in
    order ([null] is the empty list, as [|| []] makes it). *)
Fixpoint allMatches (matchAt : jsstring -> option nat) (skip : nat)
    (s : jsstring) : list jsstring :=
  match s with
  | [] => []
  | c :: s' =>
      match skip with
      | S k => allMatches matchAt k s'
      | O =>
          match matchAt s with
          | Some (S k) => take (S k) s :: allMatches matchAt k s'
          | _ => allMatches matchAt 0 s'
          end
      end
  end.

(** ** formatOutput *)

Definition isControl (c : N) : bool := ((c =? 1) || (c =? 2) || (c =? 0))%N.

Definition pipWarning : jsstring := js "WARNING: Running pip as the 'root' user".
Definition logPrefix : jsstring := js "INFO:root:".
Definition timeoutMark : jsstring := js "[Timeout]".
Definition timeoutNotice : jsstring := js "Execution timed out after 10 seconds.~".
Definition originKey : jsstring := js "^origin^".
Definition originPlaceholder : jsstring := js "{ ^origin^: ^[IP address]^ }".

(** [/WARNING: Running pip as the 'root' user.*\n/] at the head of [s]. *)
Definition matchPipWarning (s : jsstring) : option nat :=
  if startsWith s pipWarning then
    let line := restOfLine (drop (length pipWarning) s) in
    match drop (length pipWarning + length line) s with
    | c :: _ => if (c =? 10)%N then Some (length pipWarning + length line + 1)%nat else None
    | [] => None
    end
  else None.

(** [/INFO:root:.*$/m] at the head of [s]: after [.*] the text ends or a
    line terminator follows, so [$] holds. *)
Definition matchLogLine (s : jsstring) : option nat :=
  if startsWith s logPrefix then
    Some (length logPrefix + length (restOfLine (drop (length logPrefix) s)))%nat
  else None.

(** Lines 18-20: control characters and pip warnings. *)
Definition stripControl (s : jsstring) : jsstring :=
  List.filter (fun c => negb (isControl c)) s.

Definition stripPipWarnings (s : jsstring) : jsstring :=
  removeMatches matchPipWarning 0 s.

(** Lines 23-28: when there are log lines, only their messages are kept. *)
Definition collapseLogLines (s : jsstring) : jsstring :=
  let logLines := allMatches matchLogLine 0 s in
  if (0 <? length logLines)%nat
  then join (js "~") (List.map (replaceFirst logPrefix []) logLines)
  else s.

(** Lines 31-33. *)
Definition prependTimeoutNotice (s : jsstring) : jsstring :=
  if includes s timeoutMark then timeoutNotice ++ s else s.

(** Lines 36-52.  Nothing in the [try] block throws on a string. *)
Definition fixTruncatedJson (s : jsstring) : jsstring :=
  if includes s (js "{") && negb (includes s (js "}")) then
    let jsonStart := indexOf s (js "{") in
    if 0 <=? jsonStart then
      let jsonPart := substringFrom s jsonStart in
      if includes jsonPart originKey
      then substringTo s jsonStart ++ originPlaceholder
      else s
    else s
  else s.

Definition formatOutput (output : jsstring) : jsstring :=
  trim (fixTruncatedJson (prependTimeoutNotice (collapseLogLines
    (stripPipWarnings (stripControl output))))).

(** ** Notions used to reason about [formatOutput] *)

(** The text from the first occurrence of [p] on: what
    [s.substring(s.indexOf(p))] is when [p] occurs in [s]. *)
Fixpoint fromFirst (p s : jsstring) : jsstring :=
  if startsWith s p then s
  else match s with
       | [] => []
       | _ :: s' => fromFirst p s'
       end.

(** The text before the first occurrence of [p]. *)
Fixpoint beforeFirst (p s : jsstring) : jsstring :=
  if startsWith s p then []
  else match s with
       | [] => []
       | c :: s' => c :: beforeFirst p s'
       end.

(** The test of lines 38-44: an opening brace, no closing brace, and the
    origin key after the opening brace. *)
Definition looksTruncated (s : jsstring) : bool :=
  includes s (js "{") && negb (includes s (js "}"))
  && includes (fromFirst (js "{") s) originKey.

(** A pattern that begins, or that ends, with a code unit [trim] keeps. *)
Definition startsSolid (p : jsstring) : bool :=
  match p with
  | [] => false
  | a :: _ => negb (isWhiteSpace a)
  end.

Fixpoint endsSolid (p : jsstring) : bool :=
  match p with
  | [] => false
  | [a] => negb (isWhiteSpace a)
  | _ :: p' => endsSolid p'
  end.

Definition noControl (s : jsstring) : Prop := Forall (fun c => isControl c = false) s.

Arguments isWhiteSpace : simpl never.
Arguments isLineTerminator : simpl never.
Arguments isControl : simpl never.

(** ** JavaScript values of a scenario

    The fields of a scenario come from the JSON body of the request;
    [JUndefined] is a field that is not there, [JObject] any array or
    object. *)

Inductive jsval :=
| JUndefined
| JNull
| JBool (b : bool)
| JNum (q : Q)
| JStr (s : jsstring)
| JObject.

(** What [if (v)], [v || d] and [v && w] test. *)
Definition truthy (v : jsval) : bool :=
  match v with
  | JUndefined | JNull => false
  | JBool b => b
  | JNum q => negb (Qnum q =? 0)
  | JStr s => negb (bool_decide (s = []))
  | JObject => true
  end.

(** [v || d]. *)
Definition orElse (v d : jsval) : jsval := if truthy v then v else d.

(** Number-to-text conversion belongs to the JavaScript runtime and is
    taken as given: [numText v] is [`${v}`] and [secsText v] is
    [`${v / 1000}`]. *)
Record runtime := {
  numText : jsval -> jsstring;
  secsText : jsval -> jsstring
}.

(** The fields read off [job.scenario]. *)
Record scenarioConfig := {
  networkLatencyMs : jsval;
  bandwidthKbps : jsval;
  timeoutMs : jsval;
  upstream : jsval;
  simulateCrash : jsval;
  simulateHighCpu : jsval;
  simulateMemoryLeak : jsval;
  artificialDelayMs : jsval
}.

(** The scenario [{}]. *)
Definition emptyScenario : scenarioConfig :=
  {| networkLatencyMs := JUndefined; bandwidthKbps := JUndefined;
     timeoutMs := JUndefined; upstream := JUndefined;
     simulateCrash := JUndefined; simulateHighCpu := JUndefined;
     simulateMemoryLeak := JUndefined; artificialDelayMs := JUndefined |}.

(** ** wrapUserCode *)

(** [a === b] on strings. *)
Definition strictEq (a b : jsstring) : bool := bool_decide (a = b).

Definition isPython (language : jsstring) : bool := strictEq language (js "python").
Definition isNode (language : jsstring) : bool :=
  strictEq language (js "javascript") || strictEq language (js "node").

(** The fragment of line 99. *)
Definition requestsBootstrap : jsstring :=
  js "import os~os.system('pip install --quiet requests')~".

Definition wrapUserCode (rt : runtime) (code : jsstring) (scenario : scenarioConfig)
    (language : jsstring) : jsstring :=
  let pre : jsstring := [] in
  let post : jsstring := [] in
  (* Artificial delay before execution *)
  let pre :=
    if truthy (artificialDelayMs scenario) then
      if isPython language then
        pre ++ js "import time~print(^Simulating artificial delay...^)~time.sleep("
            ++ secsText rt (artificialDelayMs scenario) ++ js ")~"
      else if isNode language then
        pre ++ js "console.log(^Simulating artificial delay...^);~await new Promise(r => setTimeout(r, "
            ++ numText rt (artificialDelayMs scenario) ++ js "));~"
      else pre
    else pre in
  (* Simulate crash after execution *)
  let post :=
    if truthy (simulateCrash scenario) then
      if isPython language then
        post ++ js "~import sys~sys.exit(1)  # Simulate crash"
      else if isNode language then
        post ++ js "~process.exit(1); // Simulate crash"
      else post
    else post in
  (* Simulate high CPU load *)
  let pre :=
    if truthy (simulateHighCpu scenario) then
      if isPython language then
        pre ++ js "import threading~import time~def cpu_load():~    while True:~        pass~threading.Thread(target=cpu_load, daemon=True).start()~print(^Simulating high CPU load...^)~"
      else if isNode language then
        pre ++ js "console.log(^Simulating high CPU load...^);~function cpuLoad() { while(true) {} }~setTimeout(cpuLoad, 0);~"
      else pre
    else pre in
  (* Simulate memory leak *)
  let pre :=
    if truthy (simulateMemoryLeak scenario) then
      if isPython language then
        pre ++ js "print(^Simulating memory leak...^)~_leak = []~for _ in range(10**7):~    _leak.append('leak')~"
      else if isNode language then
        pre ++ js "console.log(^Simulating memory leak...^);~let leak = [];~for(let i=0; i<1e7; i++) { leak.push('leak'); }~"
      else pre
    else pre in
  (* Auto-install requests if Python code uses it *)
  let pre :=
    if isPython language && includes code (js "import requests") then
      pre ++ requestsBootstrap
    else pre in
  pre ++ code ++ post.

(** ** The job record (the router's [jobs[jobId]]) *)

Inductive jobStatus := queued | running | completed | failed | cancelled.

(** [job.result]: [{ output }] or [{ error }]. *)
Inductive jobResult :=
| ResultOutput (output : jsstring)
| ResultError (error : jsstring).

(** A line of [job.logs], [`[${time}] ${message}`], kept as its parts. *)
Record logEntry := { logTime : Z; logMessage : jsstring }.

Module Job.
Record t := {
  id : jsstring;
  status : jobStatus;
  language : jsstring;
  code : jsstring;
  scenario : scenarioConfig;
  logs : list logEntry;
  result : option jobResult;
  createdAt : Z;
  completedAt : option Z
}.
End Job.

(** ** Effects of [runJob]

    Every call [runJob] makes on the file system, Toxiproxy and Docker is an
    event of its trace, in the order of the calls; the end of the process,
    when a run brings it about, is the last one. *)

Inductive toxicType := latency | bandwidth | timeout.

Record containerOptions := {
  Image : jsstring;
  Cmd : list jsstring;
  Env : list jsstring;
  Binds : list jsstring;
  AutoRemove : bool;
  Memory : Z;
  CpuPeriod : Z;
  CpuQuota : Z
}.

Inductive event :=
| TmpDirCreate                                  (* tmp.dirSync({ unsafeCleanup: true }) *)
| WriteFile (file content : jsstring)           (* fs.writeFile(path.join(tmpDir.name, file), content) *)
| DeleteProxy (name : jsstring)                 (* toxiproxy.deleteProxy(name), errors swallowed *)
| CreateProxy (name listen : jsstring) (upstream : jsval)
| AddToxic (type : toxicType) (value : jsval)   (* proxy.addToxic({ type, attributes }) *)
| CreateContainer (options : containerOptions)
| Attach
| Start
| SetTimeout (ms : Z)
| Wait                                          (* container.wait() is called *)
| Kill                                          (* container.kill() is called *)
| ClearTimeout
| TmpDirRemove                                  (* tmpDir.removeCallback() *)
| ProcessExit.                                  (* the process ends on an unhandled rejection *)

(** How a call into the outside world ends. *)
Inductive outcome := Ok | Err (message : jsstring).

Inductive waitOutcome := Exited (statusCode : Z) | WaitFailed (message : jsstring).

(** The order in which the 10 second timer and the promises of
    [container.wait()] and [container.kill()] settle.  Every call settles
    some day, but for [wait()] on a container that never exits. *)
Inductive schedule :=
| ExitBeforeTimer (statusCode : Z)
    (* wait() resolves first; the timer is cleared and never fires *)
| WaitFailsBeforeTimer (message : jsstring) (kill : outcome)
    (* wait() rejects first; the timer is not cleared and fires later, if
       the process is still there *)
| TimerThenKill (kill : outcome) (wait : option waitOutcome)
    (* the timer fires, kill() settles, then wait() settles; [None] when
       wait() stays pending for ever *)
| TimerThenWait (wait : waitOutcome) (kill : outcome).
    (* the timer fires, and wait() settles while kill() is in flight *)

(** What the outside world does during one [runJob]. *)
Record world := {
  tmpName : jsstring;                 (* tmpDir.name *)
  writeFileResult : outcome;
  createProxyResult : outcome;
  addToxicResult : toxicType -> outcome;
  createContainerResult : outcome;
  attachResult : outcome;
  startResult : outcome;
  timing : schedule;
  captured : jsstring;                (* the chunks received when [output] is first read *)
  capturedLate : jsstring;            (* the chunks received after that *)
  removeCallbackResult : outcome
}.

(** A computation that performs effects and then returns or throws. *)
Definition M (A : Type) : Type := (list event * (jsstring + A))%type.

#[local] Instance M_ret : MRet M := fun A a => ([], inr a).

#[local] Instance M_bind : MBind M := fun A B f m =>
  match m with
  | (t, inl e) => (t, inl e)
  | (t, inr a) => let '(t', r) := f a in (t ++ t', r)
  end.

Definition throw {A : Type} (message : jsstring) : M A := ([], inl message).

(** A call that returns or throws as the outside world decides. *)
Definition call (e : event) (o : outcome) : M unit :=
  ([e], match o with Ok => inr tt | Err m => inl m end).

(** [try { await call } catch {}]. *)
Definition attempt (e : event) : M unit := ([e], inr tt).

Definition when (b : bool) (m : M unit) : M unit := if b then m else mret tt.

(** ** setupNetworkScenario and cleanupNetworkScenario *)

Record proxyHandle := { proxyName : jsstring; host : jsstring; port : Z }.

Definition setupNetworkScenario (w : world) (jobId : jsstring)
    (scenario : scenarioConfig) : M proxyHandle :=
  let proxyName := js "sandbox_proxy_" ++ jobId in
  let listenPort := 8666 in
  let upstream_ := orElse (upstream scenario) (JStr (js "httpbin.org:80")) in
  attempt (DeleteProxy proxyName);;
  call (CreateProxy proxyName (js "0.0.0.0:" ++ intText listenPort) upstream_)
       (createProxyResult w);;
  when (truthy (networkLatencyMs scenario))
    (call (AddToxic latency (networkLatencyMs scenario)) (addToxicResult w latency));;
  when (truthy (bandwidthKbps scenario))
    (call (AddToxic bandwidth (bandwidthKbps scenario)) (addToxicResult w bandwidth));;
  when (truthy (timeoutMs scenario))
    (call (AddToxic timeout (timeoutMs scenario)) (addToxicResult w timeout));;
  mret {| proxyName := proxyName; host := js "host.docker.internal"; port := listenPort |}.

Definition cleanupNetworkScenario (proxyName : jsstring) : list event :=
  [DeleteProxy proxyName].

(** ** runJob *)

Record runResult := { output : jsstring; success : bool }.

(** The promise [runJob] returns, once settled. *)
Inductive settled := Resolved (r : runResult) | Rejected (message : jsstring).

(** [resolve] and [reject] settle a promise that is still pending and do
    nothing to a settled one. *)
Definition settle (p : option settled) (s : settled) : option settled :=
  match p with
  | None => Some s
  | Some _ => p
  end.

(** What steps 1-5 hand to step 6. *)
Record launchPlan := {
  image : jsstring;
  runCmd : list jsstring;
  proxyEnv : list (jsstring * jsstring);
  planProxyName : option jsstring          (* [proxyName], [None] for null *)
}.

(** The test of step 5; [job.scenario] itself is an object, hence truthy. *)
Definition wantsProxy (scenario : scenarioConfig) : bool :=
  truthy (networkLatencyMs scenario) || truthy (bandwidthKbps scenario)
  || truthy (timeoutMs scenario) || truthy (upstream scenario).

(** Steps 1-5 (lines 149-189): everything before [new Promise]. *)
Definition prepareJob (rt : runtime) (w : world) (job : Job.t) : M launchPlan :=
  (* 1. Create a temp directory for the job *)
  call TmpDirCreate Ok;;   (* tmp.dirSync is taken to return *)
  let codeFile := js "usercode.js" in
  (* 2. Prepare code with scenario simulation *)
  let userCode := wrapUserCode rt (Job.code job) (Job.scenario job) (Job.language job) in
  (* 3. Choose Docker image and command based on language *)
  '(image, codeFile, runCmd) ←
    (if isPython (Job.language job) then
       mret (js "python-sandbox:latest", js "usercode.py", [js "python"; js "/code/usercode.py"])
     else if isNode (Job.language job) then
       mret (js "node:20-slim", codeFile, [js "node"; js "/code/usercode.js"])
     else throw (js "Unsupported language"));
  (* 4. Write user code to file *)
  call (WriteFile codeFile userCode) (writeFileResult w);;
  (* 5. Set up network scenario if requested *)
  '(proxyEnv, proxyName) ←
    (if wantsProxy (Job.scenario job) then
       net ← setupNetworkScenario w (Job.id job) (Job.scenario job);
       let url := js "http://" ++ host net ++ js ":" ++ intText (port net) in
       mret ([(js "HTTP_PROXY", url); (js "HTTPS_PROXY", url)], Some (proxyName net))
     else mret ([], None));
  mret {| image := image; runCmd := runCmd; proxyEnv := proxyEnv;
          planProxyName := proxyName |}.

Definition containerOptionsOf (w : world) (plan : launchPlan) : containerOptions :=
  {| Image := image plan;
     Cmd := runCmd plan;
     Env := List.map (fun kv => fst kv ++ js "=" ++ snd kv) (proxyEnv plan);
     Binds := [tmpName w ++ js ":/code:ro"];
     AutoRemove := true;
     Memory := 128 * 1024 * 1024;
     CpuPeriod := 100000;
     CpuQuota := 50000 |}.

(** A rejection that nothing handles ends the process: the server is run
    by a Node.js that keeps its default for unhandled rejections (since
    version 15 they are raised as uncaught exceptions) and [app.js]
    installs no handler.  Nothing is called once the process has ended. *)
Fixpoint untilExit (t : list event) : list event :=
  match t with
  | [] => []
  | ProcessExit :: _ => [ProcessExit]
  | e :: rest => e :: untilExit rest
  end.

(** The [finally] block (lines 226-230).  When [removeCallback] throws,
    the proxy teardown after it is not reached, and the [async] executor
    of the promise rejects with nothing to handle it. *)
Definition cleanupResources (w : world) (plan : launchPlan) : list event :=
  TmpDirRemove ::
  match removeCallbackResult w with
  | Ok =>
      match planProxyName plan with
      | Some name => cleanupNetworkScenario name
      | None => []
      end
  | Err _ => [ProcessExit]
  end.

(** The end of the timer's callback: when [kill()] rejects, the [async]
    callback rejects at its [await] with nothing to handle it. *)
Definition afterKill (kill : outcome) : list event :=
  match kill with
  | Ok => []
  | Err _ => [ProcessExit]
  end.

(** The timer's callback (lines 214-218), from the point where [kill()]
    has settled, on the captured [output] and the promise. *)
Definition onTimeout (kill : outcome) (st : jsstring * option settled)
    : jsstring * option settled :=
  match kill with
  | Ok =>
      let output := fst st ++ js "~[Timeout]" in
      (output, settle (snd st) (Resolved {| output := formatOutput output; success := false |}))
  | Err _ => st
  end.

(** The main flow once [container.wait()] has settled (lines 220-225). *)
Definition onWait (wait : waitOutcome) (st : jsstring * option settled)
    : list event * (jsstring * option settled) :=
  match wait with
  | Exited _ =>
      ([ClearTimeout],
       (fst st, settle (snd st) (Resolved {| output := formatOutput (fst st); success := true |})))
  | WaitFailed message => ([], (fst st, settle (snd st) (Rejected message)))
  end.

(** Chunks that arrive between the two continuations. *)
Definition moreData (w : world) (st : jsstring * option settled)
    : jsstring * option settled :=
  (fst st ++ capturedLate w, snd st).

(** Step 6 (lines 192-231): the promise executor, the timer's callback
    and the [finally] block, in the order the schedule gives them; the
    trace stops where the process ends. *)
Definition runContainer (w : world) (plan : launchPlan) : list event * option settled :=
  let launch : M unit :=
    call (CreateContainer (containerOptionsOf w plan)) (createContainerResult w);;
    call Attach (attachResult w);;
    call Start (startResult w) in
  match launch with
  | (t, inl err) => (untilExit (t ++ cleanupResources w plan), Some (Rejected err))
  | (t, inr _) =>
      let st0 : jsstring * option settled := (captured w, None) in
      let t := t ++ [SetTimeout 10000; Wait] in
      match timing w with
      | ExitBeforeTimer statusCode =>
          let '(tw, st) := onWait (Exited statusCode) st0 in
          (untilExit (t ++ tw ++ cleanupResources w plan), snd st)
      | WaitFailsBeforeTimer message kill =>
          let '(tw, st) := onWait (WaitFailed message) st0 in
          let st := onTimeout kill (moreData w st) in
          (untilExit (t ++ tw ++ cleanupResources w plan ++ Kill :: afterKill kill), snd st)
      | TimerThenKill kill wait =>
          let st := onTimeout kill st0 in
          match kill, wait with
          | Ok, Some wait =>
              let '(tw, st) := onWait wait (moreData w st) in
              (untilExit (t ++ [Kill] ++ tw ++ cleanupResources w plan), snd st)
          | Ok, None => (t ++ [Kill], snd st)
          | Err _, _ => (t ++ Kill :: afterKill kill, snd st)
          end
      | TimerThenWait wait kill =>
          let '(tw, st) := onWait wait st0 in
          let st := onTimeout kill (moreData w st) in
          (untilExit (t ++ [Kill] ++ tw ++ cleanupResources w plan ++ afterKill kill), snd st)
      end
  end.

(** [runJob(job)]: its trace and the settled state of the promise it
    returns, [None] for a promise that stays pending.  A throw before
    [new Promise] rejects that promise. *)
Definition runJob (rt : runtime) (w : world) (job : Job.t) : list event * option settled :=
  match prepareJob rt w job with
  | (t, inl err) => (t, Some (Rejected err))
  | (t, inr plan) => let '(t', p) := runContainer w plan in (t ++ t', p)
  end.

(** Steps 1-3 of [runJob] come before its first [await] (line 170): a
    throw there, which is that of the language check, rejects the promise
    while the caller is still in its own turn. *)
Definition rejectsAtOnce (job : Job.t) : option jsstring :=
  if isPython (Job.language job) || isNode (Job.language job)
  then None
  else Some (js "Unsupported language").

(** ** The job routes

    [jobs] is the in-memory store, keyed by job id.  Each definition below
    is one run of a handler or of a continuation between two [await]s, so
    it runs without interleaving; [now] is the clock reading of that run. *)

Abbreviation jobStore := (gmap jsstring Job.t).

Inductive response :=
| Accepted (jobId : jsstring) (status : jobStatus)   (* res.json({ jobId, status }) *)
| Refused (httpStatus : Z) (error : jsstring).       (* res.status(n).json({ error }) *)

Definition setLogs (l : list logEntry) (job : Job.t) : Job.t :=
  {| Job.id := Job.id job; Job.status := Job.status job; Job.language := Job.language job;
     Job.code := Job.code job; Job.scenario := Job.scenario job; Job.logs := l;
     Job.result := Job.result job; Job.createdAt := Job.createdAt job;
     Job.completedAt := Job.completedAt job |}.

Definition setStatus (s : jobStatus) (job : Job.t) : Job.t :=
  {| Job.id := Job.id job; Job.status := s; Job.language := Job.language job;
     Job.code := Job.code job; Job.scenario := Job.scenario job; Job.logs := Job.logs job;
     Job.result := Job.result job; Job.createdAt := Job.createdAt job;
     Job.completedAt := Job.completedAt job |}.

Definition setCompletedAt (t : Z) (job : Job.t) : Job.t :=
  {| Job.id := Job.id job; Job.status := Job.status job; Job.language := Job.language job;
     Job.code := Job.code job; Job.scenario := Job.scenario job; Job.logs := Job.logs job;
     Job.result := Job.result job; Job.createdAt := Job.createdAt job;
     Job.completedAt := Some t |}.

Definition setResult (r : jobResult) (job : Job.t) : Job.t :=
  {| Job.id := Job.id job; Job.status := Job.status job; Job.language := Job.language job;
     Job.code := Job.code job; Job.scenario := Job.scenario job; Job.logs := Job.logs job;
     Job.result := Some r; Job.createdAt := Job.createdAt job;
     Job.completedAt := Job.completedAt job |}.

(** [jobs[jobId].field = value]; on a missing record the assignment throws
    and the store is as before. *)
Definition update (jobId : jsstring) (f : Job.t -> Job.t) (jobs : jobStore) : jobStore :=
  match jobs !! jobId with
  | Some job => <[jobId := f job]> jobs
  | None => jobs
  end.

(** Lines 10-14: nothing happens for an unknown id. *)
Definition addJobLog (now : Z) (jobId message : jsstring) (jobs : jobStore) : jobStore :=
  match jobs !! jobId with
  | Some job =>
      <[jobId := setLogs (Job.logs job ++ [{| logTime := now; logMessage := message |}]) job]> jobs
  | None => jobs
  end.

(** The start of the asynchronous flow (lines 44-47), up to its [await]. *)
Definition startExecution (now : Z) (jobId : jsstring) (jobs : jobStore) : jobStore :=
  addJobLog now jobId (js "Job execution started.")
    (update jobId (setStatus running) jobs).

(** The [catch] block of the asynchronous flow (lines 52-57). *)
Definition failExecution (now : Z) (jobId message : jsstring) (jobs : jobStore) : jobStore :=
  addJobLog now jobId (js "Execution failed: " ++ message)
    (update jobId (setResult (ResultError message))
      (update jobId (setCompletedAt now)
        (update jobId (setStatus failed) jobs))).

(** POST /run (lines 17-59).  [jobId] is the fresh [uuidv4()]; a missing
    field of the body is the empty string, or [None] for the scenario.
    When [runJob] rejects before its first [await], the [catch] block runs
    as soon as the handler has returned, before any other request is
    served; it is part of this run, at the same clock reading. *)
Definition postRun (now : Z) (jobId language code : jsstring)
    (scenario : option scenarioConfig) (jobs : jobStore) : response * jobStore :=
  match scenario with
  | Some scenario =>
      if bool_decide (language = []) || bool_decide (code = []) then
        (Refused 400 (js "Missing required fields."), jobs)
      else
        let job := {| Job.id := jobId; Job.status := queued; Job.language := language;
                      Job.code := code; Job.scenario := scenario; Job.logs := [];
                      Job.result := None; Job.createdAt := now; Job.completedAt := None |} in
        let jobs := addJobLog now jobId (js "Job created and queued.") (<[jobId := job]> jobs) in
        let jobs := startExecution now jobId jobs in
        (Accepted jobId queued,
         match rejectsAtOnce job with
         | Some message => failExecution now jobId message jobs
         | None => jobs
         end)
  | None => (Refused 400 (js "Missing required fields."), jobs)
  end.

(** The rest of the asynchronous flow (lines 47-57), run when the promise
    of [runJob] settles; nothing is run for a promise that stays pending.
    Were the record gone by then, the assignment in the [try] block and
    the one in the [catch] block would both throw. *)
Definition finishExecution (rt : runtime) (w : world) (now : Z) (jobId : jsstring)
    (jobs : jobStore) : jobStore :=
  match jobs !! jobId with
  | None => jobs
  | Some job =>
      match snd (runJob rt w job) with
      | Some (Resolved result) =>
          addJobLog now jobId (js "Execution completed.")
            (update jobId (setResult (ResultOutput (output result)))
              (update jobId (setCompletedAt now)
                (update jobId (setStatus completed) jobs)))
      | Some (Rejected message) => failExecution now jobId message jobs
      | None => jobs
      end
  end.

(** POST /cancel/:jobId (lines 106-123). *)
Definition postCancel (now : Z) (jobId : jsstring) (jobs : jobStore) : response * jobStore :=
  match jobs !! jobId with
  | None => (Refused 404 (js "Job not found."), jobs)
  | Some job =>
      match Job.status job with
      | queued | running =>
          (Accepted jobId cancelled,
           addJobLog now jobId (js "Job was cancelled by user.")
             (update jobId (setCompletedAt now)
               (update jobId (setStatus cancelled) jobs)))
      | _ => (Refused 400 (js "Job is not running or queued."), jobs)
      end
  end.

(** The periodic cleanup (lines 143-151). *)
Definition retentionMs : Z := 3600 * 1000.
Definition sweepIntervalMs : Z := 3600 * 1000.

(** [job.completedAt && now - new Date(job.completedAt).getTime() > 3600 * 1000] *)
Definition expired (now : Z) (job : Job.t) : bool :=
  match Job.completedAt job with
  | Some t => now - t >? retentionMs
  | None => false
  end.

(** One round of the [forEach].  A listed key still has its record when
    its turn comes: a round deletes no key but its own. *)
Definition sweepOne (now : Z) (jobs : jobStore) (jobId : jsstring) : jobStore :=
  match jobs !! jobId with
  | Some job => if expired now job then delete jobId jobs else jobs
  | None => jobs
  end.

(** [Object.keys(jobs).forEach(...)]: the keys are listed once, before the
    first deletion. *)
Definition sweep (now : Z) (jobs : jobStore) : jobStore :=
  foldl (sweepOne now) jobs (elements (dom jobs)).

(** ** Classes of events, for the statements below *)

Definition isTmpDirCreate (e : event) : bool :=
  match e with TmpDirCreate => true | _ => false end.

Definition isTmpDirRemove (e : event) : bool :=
  match e with TmpDirRemove => true | _ => false end.

Definition isProxyEvent (e : event) : bool :=
  match e with DeleteProxy _ | CreateProxy _ _ _ | AddToxic _ _ => true | _ => false end.

Definition isProxyCreate (e : event) : bool :=
  match e with CreateProxy _ _ _ => true | _ => false end.

Definition isFileWrite (e : event) : bool :=
  match e with WriteFile _ _ => true | _ => false end.

Definition isContainerEvent (e : event) : bool :=
  match e with
  | CreateContainer _ | Attach | Start | SetTimeout _ | Wait | Kill | ClearTimeout => true
  | _ => false
  end.

(** Creating the proxy and attaching a toxic: the calls of provisioning. *)
Definition isProvisioning (e : event) : bool :=
  match e with CreateProxy _ _ _ | AddToxic _ _ => true | _ => false end.

(** A resource of a job: its temporary directory or its proxy. *)
Definition provisions (e : event) : bool := isTmpDirCreate e || isProxyCreate e.

Definition count (p : event -> bool) (t : list event) : nat := length (List.filter p t).

(** The toxics attached, in the order of the calls. *)
Definition toxicsOf (t : list event) : list (toxicType * jsval) :=
  flat_map (fun e => match e with AddToxic ty v => [(ty, v)] | _ => [] end) t.

(** ** Inputs for the examples *)

(** The conversions at the one number the examples render, 2000. *)
Definition exampleRuntime : runtime :=
  {| numText := fun _ => js "2000"; secsText := fun _ => js "2" |}.

(** A world in which every call succeeds. *)
Definition worldOf (timing : schedule) (captured : jsstring) : world :=
  {| tmpName := js "/tmp/tmp-4242";
     writeFileResult := Ok;
     createProxyResult := Ok;
     addToxicResult := fun _ => Ok;
     createContainerResult := Ok;
     attachResult := Ok;
     startResult := Ok;
     timing := timing;
     captured := captured;
     capturedLate := [];
     removeCallbackResult := Ok |}.

Definition calmWorld : world := worldOf (ExitBeforeTimer 0) (js "2~").

(** The disk is full: [fs.writeFile] rejects. *)
Definition fullDiskWorld : world :=
  {| tmpName := js "/tmp/tmp-4242";
     writeFileResult := Err (js "ENOSPC: no space left on device");
     createProxyResult := Ok;
     addToxicResult := fun _ => Ok;
     createContainerResult := Ok;
     attachResult := Ok;
     startResult := Ok;
     timing := ExitBeforeTimer 0;
     captured := [];
     capturedLate := [];
     removeCallbackResult := Ok |}.

(** Toxiproxy creates the proxy and then refuses a toxic. *)
Definition brokenToxicWorld : world :=
  {| tmpName := js "/tmp/tmp-4242";
     writeFileResult := Ok;
     createProxyResult := Ok;
     addToxicResult := fun _ => Err (js "HTTP 400");
     createContainerResult := Ok;
     attachResult := Ok;
     startResult := Ok;
     timing := ExitBeforeTimer 0;
     captured := [];
     capturedLate := [];
     removeCallbackResult := Ok |}.

(** The run takes more than 10 seconds and Docker refuses the kill; the
    program would end on its own later. *)
Definition refusedKillWorld : world :=
  worldOf (TimerThenKill (Err (js "(HTTP code 500) server error")) (Some (Exited 0)))
    (js "tick~").

(** The run takes more than 10 seconds, the kill goes through, and the
    promise of [container.wait()] rejects before that of [container.kill()]
    settles. *)
Definition waitFailsWorld : world :=
  worldOf (TimerThenWait (WaitFailed (js "socket hang up")) Ok) (js "tick~").

(** The run takes more than 10 seconds, the kill goes through and the
    program has logged through the logging module. *)
Definition loggingWorld : world :=
  worldOf (TimerThenKill Ok (Some (Exited 137))) (js "INFO:root:tick~").

(** The connection of [container.wait()] drops while the program runs. *)
Definition hangUpWorld : world :=
  worldOf (WaitFailsBeforeTimer (js "socket hang up") Ok) (js "tick~").

(** The run takes more than 10 seconds, the kill goes through, and the
    promise of [container.wait()] settles before that of [container.kill()]. *)
Definition waitWinsWorld : world :=
  worldOf (TimerThenWait (Exited 137) Ok) (js "tick~").

Definition jobOf (language code : jsstring) (scenario : scenarioConfig) : Job.t :=
  {| Job.id := js "job-1"; Job.status := running; Job.language := language;
     Job.code := code; Job.scenario := scenario; Job.logs := [];
     Job.result := None; Job.createdAt := 0; Job.completedAt := None |}.

Definition crashScenario : scenarioConfig :=
  {| networkLatencyMs := JUndefined; bandwidthKbps := JUndefined;
     timeoutMs := JUndefined; upstream := JUndefined;
     simulateCrash := JBool true; simulateHighCpu := JUndefined;
     simulateMemoryLeak := JUndefined; artificialDelayMs := JUndefined |}.

(** Latency and a timeout are asked for, a bandwidth of 0 is not. *)
Definition slowNetScenario : scenarioConfig :=
  {| networkLatencyMs := JNum (250 # 1); bandwidthKbps := JNum (0 # 1);
     timeoutMs := JNum (1000 # 1); upstream := JUndefined;
     simulateCrash := JBool false; simulateHighCpu := JBool false;
     simulateMemoryLeak := JBool false; artificialDelayMs := JNum (0 # 1) |}.

Definition allFaultsScenario : scenarioConfig :=
  {| networkLatencyMs := JUndefined; bandwidthKbps := JUndefined;
     timeoutMs := JUndefined; upstream := JUndefined;
     simulateCrash := JBool true; simulateHighCpu := JBool true;
     simulateMemoryLeak := JBool true; artificialDelayMs := JNum (2000 # 1) |}.

(** Another job, in JavaScript, whose scenario names an upstream only. *)
Definition upstreamJob : Job.t :=
  {| Job.id := js "job-2"; Job.status := running; Job.language := js "node";
     Job.code := js "console.log(1+1)";
     Job.scenario :=
       {| networkLatencyMs := JUndefined; bandwidthKbps := JUndefined;
          timeoutMs := JUndefined; upstream := JStr (js "example.org:80");
          simulateCrash := JUndefined; simulateHighCpu := JUndefined;
          simulateMemoryLeak := JUndefined; artificialDelayMs := JUndefined |};
     Job.logs := []; Job.result := None; Job.createdAt := 0; Job.completedAt := None |}.

Definition rubyJob : Job.t := jobOf (js "ruby") (js "puts 1 + 1") emptyScenario.
Definition pythonJob : Job.t := jobOf (js "python") (js "print(1+1)") emptyScenario.
Definition slowNetJob : Job.t := jobOf (js "python") (js "print(1+1)") slowNetScenario.

(** A job is submitted at time 0, cancelled at 1000, and its container
    exits at 2000. *)
Definition storeAfterRun : jobStore :=
  snd (postRun 0 (js "job-1") (js "python") (js "print(1+1)") (Some emptyScenario) ∅).

Definition storeAfterCancel : jobStore :=
  snd (postCancel 1000 (js "job-1") storeAfterRun).

Definition storeAfterFinish : jobStore :=
  finishExecution exampleRuntime calmWorld 2000 (js "job-1") storeAfterCancel.

(** The same when [container.wait()] rejects at 2000. *)
Definition storeAfterFailure : jobStore :=
  finishExecution exampleRuntime hangUpWorld 2000 (js "job-1") storeAfterCancel.

(** A job in a language [runJob] does not know is submitted at time 0. *)
Definition rubyStoreAfterRun : jobStore :=
  snd (postRun 0 (js "job-2") (js "ruby") (js "puts 1 + 1") (Some emptyScenario) ∅).

(** ** The reading routes *)

(** An answer of a reading route: [res.json(body)] or
    [res.status(n).json({ error })]. *)
Inductive reply (A : Type) :=
| Body (body : A)
| Failure (httpStatus : Z) (error : jsstring).

Arguments Body {A} body.
Arguments Failure {A} httpStatus error.

(** [{ jobId, status, createdAt, completedAt }] *)
Record jobSummary := {
  summaryJobId : jsstring;
  summaryStatus : jobStatus;
  summaryCreatedAt : Z;
  summaryCompletedAt : option Z
}.

Definition summaryOf (jobId : jsstring) (job : Job.t) : jobSummary :=
  {| summaryJobId := jobId; summaryStatus := Job.status job;
     summaryCreatedAt := Job.createdAt job; summaryCompletedAt := Job.completedAt job |}.

(** GET /status/:jobId (lines 89-103). *)
Definition getStatus (jobId : jsstring) (jobs : jobStore) : reply jobSummary :=
  match jobs !! jobId with
  | None => Failure 404 (js "Job not found.")
  | Some job => Body (summaryOf jobId job)
  end.

(** [s.split(sep)] for a separator that is not empty.  [skip] counts the
    code units of the separator at hand still to pass. *)
Fixpoint split (sep : jsstring) (skip : nat) (s : jsstring) : list jsstring :=
  match s with
  | [] => [[]]
  | c :: s' =>
      match skip with
      | S k => split sep k s'
      | O =>
          if startsWith s sep then [] :: split sep (length sep - 1) s'
          else match split sep 0 s' with
               | part :: rest => (c :: part) :: rest
               | [] => [[c]]
               end
      end
  end.

(** Lines 72-78 on [formattedResult.output]. *)
Definition redactIpInfo (output : jsstring) : jsstring :=
  if includes output (js "IP info: {") && negb (includes output (js "}")) then
    let parts := split (js "IP info:") 0 output in
    hd [] parts ++ js "IP info: { ^origin^: ^[IP address]^ }"
  else output.

(** [{ ...job.result }] with its output redacted: [None] is the empty
    object that the spread of [null] gives. *)
Definition formattedResultOf (result : option jobResult) : option jobResult :=
  match result with
  | Some (ResultOutput output) =>
      if bool_decide (output = []) then result else Some (ResultOutput (redactIpInfo output))
  | _ => result
  end.

(** [{ jobId, status, logs, result }] *)
Record logsBody := {
  logsJobId : jsstring;
  logsStatus : jobStatus;
  logsLines : list logEntry;
  logsResult : option jobResult
}.

(** GET /logs/:jobId (lines 62-86). *)
Definition getLogs (jobId : jsstring) (jobs : jobStore) : reply logsBody :=
  match jobs !! jobId with
  | None => Failure 404 (js "Job not found.")
  | Some job =>
      Body {| logsJobId := jobId; logsStatus := Job.status job;
              logsLines := Job.logs job;
              logsResult := formattedResultOf (Job.result job) |}
  end.

(** [job.status] as the string the store holds. *)
Definition statusText (s : jobStatus) : jsstring :=
  match s with
  | queued => js "queued"
  | running => js "running"
  | completed => js "completed"
  | failed => js "failed"
  | cancelled => js "cancelled"
  end.

(** GET /jobs (lines 126-140); [status] is the query parameter, empty when
    there is none.  The list comes in the order of [map_to_list]; the order
    of [Object.entries], that of insertion, is not kept by the store. *)
Definition getJobs (status : jsstring) (jobs : jobStore) : list jobSummary :=
  let filteredJobs := map_to_list jobs in
  let filteredJobs :=
    if negb (bool_decide (status = [])) then
      List.filter (fun entry => strictEq (statusText (Job.status (snd entry))) status)
        filteredJobs
    else filteredJobs in
  List.map (fun entry => summaryOf (fst entry) (snd entry)) filteredJobs.

(** ** Requests in sequence

    What reaches the store, one run at a time: a submission, the settling
    of the promise of a job's [runJob], a cancel, a sweep. *)

Inductive request :=
| Submit (now : Z) (jobId language code : jsstring) (scenario : option scenarioConfig)
| Settle (rt : runtime) (w : world) (now : Z) (jobId : jsstring)
| Cancel (now : Z) (jobId : jsstring)
| Sweep (now : Z).

Definition handle (jobs : jobStore) (r : request) : jobStore :=
  match r with
  | Submit now jobId language code scenario =>
      snd (postRun now jobId language code scenario jobs)
  | Settle rt w now jobId => finishExecution rt w now jobId jobs
  | Cancel now jobId => snd (postCancel now jobId jobs)
  | Sweep now => sweep now jobs
  end.

(** The store after the requests [rs], from the empty store of line 7. *)
Definition serve (rs : list request) : jobStore := foldl handle ∅ rs.

(** The job a request is about. *)
Definition targetOf (r : request) : option jsstring :=
  match r with
  | Submit _ jobId _ _ _ | Settle _ _ _ jobId | Cancel _ jobId => Some jobId
  | Sweep _ => None
  end.

(** The messages of the two log lines every record starts with. *)
Definition openingMessages : list jsstring :=
  [js "Job created and queued."; js "Job execution started."].

(** What holds of every record of the store: it is filed under its own id,
    its log starts with the two opening lines, it has a [completedAt]
    exactly when its status is final, and a result exactly when it is
    completed (an output) or failed (an error). *)
Definition coherent (jobId : jsstring) (job : Job.t) : Prop :=
  Job.id job = jobId
  /\ (exists rest, List.map logMessage (Job.logs job) = openingMessages ++ rest)
  /\ match Job.status job with
     | queued | running => Job.completedAt job = None /\ Job.result job = None
     | cancelled => Job.completedAt job <> None /\ Job.result job = None
     | completed =>
         Job.completedAt job <> None /\ exists text, Job.result job = Some (ResultOutput text)
     | failed =>
         Job.completedAt job <> None /\ exists text, Job.result job = Some (ResultError text)
     end.

(** The record [postRun] files, as it stands when the handler returns. *)
Definition freshJob (now : Z) (jobId language code : jsstring)
    (scenario : scenarioConfig) : Job.t :=
  {| Job.id := jobId; Job.status := running; Job.language := language;
     Job.code := code; Job.scenario := scenario;
     Job.logs := [ {| logTime := now; logMessage := js "Job created and queued." |};
                   {| logTime := now; logMessage := js "Job execution started." |} ];
     Job.result := None; Job.createdAt := now; Job.completedAt := None |}.

(** The log line a handler adds. *)
Definition logged (now : Z) (message : jsstring) (job : Job.t) : Job.t :=
  setLogs (Job.logs job ++ [{| logTime := now; logMessage := message |}]) job.

(** The record as the [catch] block leaves it. *)
Definition failedJob (now : Z) (message : jsstring) (job : Job.t) : Job.t :=
  logged now (js "Execution failed: " ++ message)
    (setResult (ResultError message) (setCompletedAt now (setStatus failed job))).

(** The record of a submission as the next request finds it: failed
    already when [runJob] rejects before its first [await]. *)
Definition filedJob (now : Z) (jobId language code : jsstring)
    (scenario : scenarioConfig) : Job.t :=
  let job := freshJob now jobId language code scenario in
  match rejectsAtOnce job with
  | Some message => failedJob now message job
  | None => job
  end.

(** ** Notions used to reason about [runJob] *)

(** The toxics a scenario asks for, in the order of lines 122-139. *)
Definition requestedToxics (scenario : scenarioConfig) : list (toxicType * jsval) :=
  (if truthy (networkLatencyMs scenario) then [(latency, networkLatencyMs scenario)] else [])
  ++ (if truthy (bandwidthKbps scenario) then [(bandwidth, bandwidthKbps scenario)] else [])
  ++ (if truthy (timeoutMs scenario) then [(timeout, timeoutMs scenario)] else []).

Definition toxicEvent (t : toxicType * jsval) : event := AddToxic (fst t) (snd t).

(** The calls that attach a list of toxics, one after the other. *)
Fixpoint attachToxics (w : world) (l : list (toxicType * jsval)) : M unit :=
  match l with
  | [] => mret tt
  | t :: rest => call (toxicEvent t) (addToxicResult w (fst t));; attachToxics w rest
  end.

(** The name of the proxy of a job and the handle provisioning returns. *)
Definition proxyNameOf (jobId : jsstring) : jsstring := js "sandbox_proxy_" ++ jobId.

Definition handleOf (jobId : jsstring) : proxyHandle :=
  {| proxyName := proxyNameOf jobId; host := js "host.docker.internal"; port := 8666 |}.

(** The file the code of a job is written to. *)
Definition codeFileOf (language : jsstring) : jsstring :=
  if isPython language then js "usercode.py" else js "usercode.js".

(** The plan steps 1-5 arrive at, with or without a proxy. *)
Definition planOf (job : Job.t) (proxied : bool) : launchPlan :=
  {| image := if isPython (Job.language job)
              then js "python-sandbox:latest" else js "node:20-slim";
     runCmd := if isPython (Job.language job)
               then [js "python"; js "/code/usercode.py"]
               else [js "node"; js "/code/usercode.js"];
     proxyEnv := if proxied
                 then [(js "HTTP_PROXY", js "http://host.docker.internal:8666");
                       (js "HTTPS_PROXY", js "http://host.docker.internal:8666")]
                 else [];
     planProxyName := if proxied then Some (proxyNameOf (Job.id job)) else None |}.

Definition isOk (o : outcome) : bool :=
  match o with Ok => true | Err _ => false end.

Definition isDeleteProxy (e : event) : bool :=
  match e with DeleteProxy _ => true | _ => false end.

Definition isCreateContainer (e : event) : bool :=
  match e with CreateContainer _ => true | _ => false end.

(** The timer fires: it has not been cleared, and when [wait()] has
    rejected before it, the [finally] block has not ended the process. *)
Definition timerFires (w : world) : bool :=
  match timing w with
  | ExitBeforeTimer _ => false
  | WaitFailsBeforeTimer _ _ => isOk (removeCallbackResult w)
  | _ => true
  end.

(** [job] with another language. *)
Definition setLanguage (language : jsstring) (job : Job.t) : Job.t :=
  {| Job.id := Job.id job; Job.status := Job.status job; Job.language := language;
     Job.code := Job.code job; Job.scenario := Job.scenario job; Job.logs := Job.logs job;
     Job.result := Job.result job; Job.createdAt := Job.createdAt job;
     Job.completedAt := Job.completedAt job |}.


(** What [container.wait()] has done when the main flow resumes after it;
    [None] when it never resumes: [wait()] stays pending, or the process
    has ended on a refused [kill()]. *)
Definition waitOf (s : schedule) : option waitOutcome :=
  match s with
  | ExitBeforeTimer statusCode => Some (Exited statusCode)
  | WaitFailsBeforeTimer message _ => Some (WaitFailed message)
  | TimerThenKill Ok wait => wait
  | TimerThenKill (Err _) _ => None
  | TimerThenWait wait _ => Some wait
  end.

Definition waitResolves (s : schedule) : bool :=
  match waitOf s with Some (Exited _) => true | _ => false end.

Definition isProcessExit (e : event) : bool :=
  match e with ProcessExit => true | _ => false end.

(** Steps 1-5 go through: the language is recognized, the file is written
    and, when a proxy is asked for, Toxiproxy accepts every call. *)
Definition prepared (w : world) (job : Job.t) : bool :=
  (isPython (Job.language job) || isNode (Job.language job))
  && isOk (writeFileResult w)
  && (negb (wantsProxy (Job.scenario job))
      || isOk (createProxyResult w)
         && forallb (fun t => isOk (addToxicResult w (fst t)))
              (requestedToxics (Job.scenario job))).

(** The container is created, attached to and started. *)
Definition launched (w : world) : bool :=
  isOk (createContainerResult w) && isOk (attachResult w) && isOk (startResult w).

(** The [try] block of step 6 is left, so that its [finally] block runs:
    the launch fails, or the main flow resumes after [wait()]. *)
Definition reachesFinally (w : world) : bool :=
  negb (launched w)
  || match waitOf (timing w) with Some _ => true | None => false end.

(** The [kill()] of the timer's callback is refused. *)
Definition killRefused (s : schedule) : bool :=
  match s with
  | ExitBeforeTimer _ => false
  | WaitFailsBeforeTimer _ kill | TimerThenKill kill _ | TimerThenWait _ kill =>
      negb (isOk kill)
  end.

(** Step 6 meets a rejection nothing handles: [removeCallback] throws in
    the [finally] block, or the [kill()] of the timer's callback is
    refused. *)
Definition endsProcess (w : world) : bool :=
  reachesFinally w && negb (isOk (removeCallbackResult w))
  || launched w && killRefused (timing w).

Definition isKill (e : event) : bool :=
  match e with Kill => true | _ => false end.

Definition isTimerEvent (e : event) : bool :=
  match e with SetTimeout _ | ClearTimeout => true | _ => false end.

(** ** The class [ScenarioSimulator]

    An object holds one field, [toxiproxyRunning]; its methods write lines
    to the console and talk to nothing else.  A method returns the object
    after the call and the lines it wrote; the numbers and values of a line
    are kept as such, not as text. *)

Module ScenarioSimulator.

Inductive line :=
| ToxiproxyStarted                       (* 'Toxiproxy started' *)
| ProxyCreated (listenPort : Z) (upstreamHost : jsstring) (upstreamPort : Z)
| LatencyAdded (latencyMs : jsval).

Record t := { toxiproxyRunning : bool }.

(** [new ScenarioSimulator()] *)
Definition new : t := {| toxiproxyRunning := false |}.

Definition startToxiproxy (this : t) : t * list line :=
  ({| toxiproxyRunning := true |}, [ToxiproxyStarted]).

Definition createProxy (this : t) (listenPort : Z) (upstreamHost : jsstring)
    (upstreamPort : Z) : t * list line :=
  (this, [ProxyCreated listenPort upstreamHost upstreamPort]).

Definition addLatency (this : t) (proxy : jsstring) (latencyMs : jsval) : t * list line :=
  (this, [LatencyAdded latencyMs]).

(** [simulateScenario(scenarioConfig)] reads one thing of its argument, the
    key networkLatencyMs: [latencyKey] is [Some v] when the key is in the
    object, with value [v], and [None] when it is not. *)
Definition simulateScenario (this : t) (latencyKey : option jsval) : t * list line :=
  let '(this, started) :=
    if negb (toxiproxyRunning this) then startToxiproxy this else (this, []) in
  match latencyKey with
  | Some latencyMs =>
      let '(this, created) := createProxy this 12345 (js "upstream_host") 80 in
      let '(this, added) := addLatency this (js "proxy") latencyMs in
      (this, started ++ created ++ added)
  | None => (this, started)
  end.

(** One call after the other on the same object. *)
Fixpoint simulateAll (this : t) (configs : list (option jsval)) : t * list line :=
  match configs with
  | [] => (this, [])
  | c :: rest =>
      let '(this, lines) := simulateScenario this c in
      let '(this, more) := simulateAll this rest in
      (this, lines ++ more)
  end.

(** What the calls write for the latency keys alone. *)
Definition proxyLines (configs : list (option jsval)) : list line :=
  flat_map (fun c => match c with
                     | Some latencyMs =>
                         [ProxyCreated 12345 (js "upstream_host") 80; LatencyAdded latencyMs]
                     | None => []
                     end) configs.

End ScenarioSimulator.

(** ** Tactics *)

(** Case analysis on everything step 6 depends on; [close] ends each case. *)
Ltac runContainer_cases w plan close :=
  unfold runContainer, cleanupResources, cleanupNetworkScenario, onWait, onTimeout, afterKill;
  destruct (createContainerResult w), (attachResult w), (startResult w); cbn;
  try (destruct (removeCallbackResult w), (planProxyName plan); close);
  destruct (timing w) as [c|m k|k [wt|]|wt k]; try destruct wt; try destruct k;
  destruct (removeCallbackResult w), (planProxyName plan); close.

(** * Properties *)

(** ** formatOutput *)

(** *** Searching *)

Lemma startsWith_nil_l (p : jsstring) : p <> [] -> startsWith [] p = false.
Proof. by destruct p. Qed.

Lemma includes_nil_l (p : jsstring) : p <> [] -> includes [] p = false.
Proof. intros H. cbn [includes]. by rewrite startsWith_nil_l. Qed.

Lemma includes_cons (c : N) (s p : jsstring) :
  includes (c :: s) p = startsWith (c :: s) p || includes s p.
Proof. reflexivity. Qed.

Lemma includes_false_inv (c : N) (s p : jsstring) :
  includes (c :: s) p = false -> startsWith (c :: s) p = false /\ includes s p = false.
Proof. rewrite includes_cons. apply orb_false_elim. Qed.

Lemma includes_app_r (a b p : jsstring) :
  includes b p = true -> includes (a ++ b) p = true.
Proof.
  intros H. induction a as [|c a IH]; [done|].
  cbn [app]. rewrite includes_cons, IH. apply orb_true_r.
Qed.

Lemma indexOf_includes (s p : jsstring) :
  includes s p = true -> 0 <= indexOf s p.
Proof.
  induction s as [|c s IH]; cbn [includes indexOf].
  - rewrite orb_false_r. by intros ->.
  - destruct (startsWith (c :: s) p); [done|]. cbn [orb]. intros H.
    specialize (IH H). destruct (Z.ltb_spec (indexOf s p) 0); lia.
Qed.

Lemma substringFrom_indexOf (s p : jsstring) :
  includes s p = true -> substringFrom s (indexOf s p) = fromFirst p s.
Proof.
  unfold substringFrom.
  induction s as [|c s IH]; cbn [includes indexOf fromFirst].
  - rewrite orb_false_r. by intros ->.
  - destruct (startsWith (c :: s) p); [done|]. cbn [orb]. intros H.
    pose proof (indexOf_includes s p H) as Hi.
    destruct (Z.ltb_spec (indexOf s p) 0); [lia|].
    rewrite <- (IH H). rewrite Z2Nat.inj_add by lia.
    by rewrite Nat.add_comm.
Qed.

Lemma substringTo_indexOf (s p : jsstring) :
  includes s p = true -> substringTo s (indexOf s p) = beforeFirst p s.
Proof.
  unfold substringTo.
  induction s as [|c s IH]; cbn [includes indexOf beforeFirst].
  - rewrite orb_false_r. by intros ->.
  - destruct (startsWith (c :: s) p); [done|]. cbn [orb]. intros H.
    pose proof (indexOf_includes s p H) as Hi.
    destruct (Z.ltb_spec (indexOf s p) 0); [lia|].
    rewrite <- (IH H). rewrite Z2Nat.inj_add by lia.
    by rewrite Nat.add_comm.
Qed.

(** [fixTruncatedJson] in terms of [looksTruncated]. *)
Lemma fixTruncatedJson_eq (s : jsstring) :
  fixTruncatedJson s
  = if looksTruncated s then beforeFirst (js "{") s ++ originPlaceholder else s.
Proof.
  unfold fixTruncatedJson, looksTruncated.
  destruct (includes s (js "{")) eqn:Hopen; [|done].
  destruct (includes s (js "}")); [done|]. cbn [negb andb].
  pose proof (indexOf_includes _ _ Hopen) as Hi.
  destruct (Z.leb_spec 0 (indexOf s (js "{"))); [|lia].
  by rewrite substringFrom_indexOf, substringTo_indexOf.
Qed.

(** *** Trimming *)

Lemma trimEnd_cons (c : N) (s : jsstring) :
  trimEnd (c :: s)
  = match trimEnd s with
    | [] => if isWhiteSpace c then [] else [c]
    | r => c :: r
    end.
Proof. reflexivity. Qed.

Lemma trimEnd_idempotent (s : jsstring) : trimEnd (trimEnd s) = trimEnd s.
Proof.
  induction s as [|c s IH]; [done|].
  rewrite trimEnd_cons. destruct (trimEnd s) as [|d r] eqn:Hr.
  - destruct (isWhiteSpace c) eqn:Hc; [done|]. cbn. by rewrite Hc.
  - rewrite trimEnd_cons, IH. reflexivity.
Qed.

Lemma trimStart_solid (s : jsstring) :
  trimStart s = [] \/ startsSolid (trimStart s) = true.
Proof.
  induction s as [|c s IH]; [by left|].
  cbn [trimStart]. destruct (isWhiteSpace c) eqn:Hc; [done|].
  right. cbn. by rewrite Hc.
Qed.

Lemma trimStart_id (s : jsstring) :
  s = [] \/ startsSolid s = true -> trimStart s = s.
Proof.
  intros [->|H]; [done|]. destruct s as [|c s]; [done|].
  cbn in *. by destruct (isWhiteSpace c).
Qed.

Lemma trimEnd_keeps_solid_start (s : jsstring) :
  s = [] \/ startsSolid s = true -> trimEnd s = [] \/ startsSolid (trimEnd s) = true.
Proof.
  intros [->|H]; [by left|]. destruct s as [|c s]; [done|].
  right. rewrite trimEnd_cons. cbn in H.
  destruct (trimEnd s); [|done]. destruct (isWhiteSpace c) eqn:Hc; [done|].
  cbn. by rewrite Hc.
Qed.

Lemma trim_idempotent (s : jsstring) : trim (trim s) = trim s.
Proof.
  unfold trim.
  rewrite (trimStart_id (trimEnd (trimStart s))).
  - apply trimEnd_idempotent.
  - apply trimEnd_keeps_solid_start, trimStart_solid.
Qed.

(** Searching for a pattern whose first code unit [trim] keeps. *)
Section SolidPattern.

Variable p : jsstring.
Hypothesis p_starts : startsSolid p = true.

Lemma startsWith_whitespace (c : N) (s : jsstring) :
  isWhiteSpace c = true -> startsWith (c :: s) p = false.
Proof using p_starts.
  intros Hc. destruct p as [|a q]; [done|]. cbn in p_starts |- *.
  destruct (N.eqb_spec a c) as [->|]; [|done].
  by rewrite Hc in p_starts.
Qed.

Lemma includes_trimStart (s : jsstring) :
  includes (trimStart s) p = includes s p.
Proof using p_starts.
  induction s as [|c s IH]; [done|].
  cbn [trimStart]. destruct (isWhiteSpace c) eqn:Hc; [|done].
  by rewrite includes_cons, startsWith_whitespace.
Qed.

Lemma fromFirst_trimStart (s : jsstring) :
  fromFirst p (trimStart s) = fromFirst p s.
Proof using p_starts.
  induction s as [|c s IH]; [done|].
  cbn [trimStart]. destruct (isWhiteSpace c) eqn:Hc; [|done].
  cbn [fromFirst]. by rewrite startsWith_whitespace.
Qed.

End SolidPattern.

Lemma startsWith_cons (a b : N) (q s : jsstring) :
  startsWith (b :: s) (a :: q) = (a =? b)%N && startsWith s q.
Proof. reflexivity. Qed.

Lemma startsWith_trimEnd (p s : jsstring) :
  endsSolid p = true -> startsWith (trimEnd s) p = startsWith s p.
Proof.
  revert s. induction p as [|a q IH]; intros s Hp; [done|].
  destruct s as [|b s]; [done|].
  rewrite trimEnd_cons, startsWith_cons. destruct q as [|a' q'].
  - cbn in Hp. destruct (trimEnd s) as [|d r].
    + destruct (isWhiteSpace b) eqn:Hb; [|done].
      cbn. destruct (N.eqb_spec a b) as [->|]; [|done]. by rewrite Hb in Hp.
    + done.
  - assert (Hq : endsSolid (a' :: q') = true) by exact Hp.
    rewrite <- (IH s Hq).
    destruct (trimEnd s) as [|d r]; [|done].
    rewrite (startsWith_nil_l (a' :: q')), andb_false_r by done.
    destruct (isWhiteSpace b); [done|].
    by rewrite startsWith_cons, (startsWith_nil_l (a' :: q')), andb_false_r.
Qed.

Lemma endsSolid_nonempty (p : jsstring) : endsSolid p = true -> p <> [].
Proof. by destruct p. Qed.

Lemma includes_trimEnd (p s : jsstring) :
  endsSolid p = true -> includes (trimEnd s) p = includes s p.
Proof.
  intros Hp. pose proof (endsSolid_nonempty p Hp) as Hne.
  induction s as [|c s IH]; [done|].
  rewrite includes_cons, <- IH, <- (startsWith_trimEnd p (c :: s) Hp), trimEnd_cons.
  destruct (trimEnd s) as [|d r]; [|done].
  rewrite (includes_nil_l p Hne), orb_false_r.
  destruct (isWhiteSpace c); cbn [includes];
    by rewrite ?(startsWith_nil_l p Hne), ?orb_false_r.
Qed.

Lemma includes_trim (p s : jsstring) :
  startsSolid p = true -> endsSolid p = true -> includes (trim s) p = includes s p.
Proof.
  intros Hs He. unfold trim. by rewrite includes_trimEnd, includes_trimStart.
Qed.

Lemma fromFirst_trimEnd (p s : jsstring) :
  endsSolid p = true -> includes s p = true ->
  fromFirst p (trimEnd s) = trimEnd (fromFirst p s).
Proof.
  intros Hp. pose proof (endsSolid_nonempty p Hp) as Hne.
  induction s as [|c s IH]; intros Hin.
  - by rewrite includes_nil_l in Hin.
  - cbn [fromFirst]. destruct (startsWith (c :: s) p) eqn:Hs.
    + destruct (trimEnd (c :: s)) as [|d r] eqn:Hr.
      * rewrite <- (startsWith_trimEnd p (c :: s) Hp), Hr in Hs.
        by rewrite startsWith_nil_l in Hs.
      * cbn [fromFirst]. by rewrite <- Hr, startsWith_trimEnd, Hs.
    + rewrite includes_cons, Hs in Hin. cbn [orb] in Hin.
      rewrite <- (IH Hin).
      pose proof (startsWith_trimEnd p (c :: s) Hp) as Hsw. rewrite Hs in Hsw.
      rewrite trimEnd_cons in *.
      destruct (trimEnd s) as [|d r] eqn:Hr.
      * rewrite <- (includes_trimEnd p s Hp), Hr in Hin.
        by rewrite includes_nil_l in Hin.
      * cbn [fromFirst]. by rewrite Hsw.
Qed.

(** *** The steps of [formatOutput], one by one *)

Lemma looksTruncated_trim (s : jsstring) : looksTruncated (trim s) = looksTruncated s.
Proof.
  unfold looksTruncated.
  rewrite !includes_trim by reflexivity.
  destruct (includes s (js "{")) eqn:Hopen; [|done].
  destruct (includes s (js "}")); [done|]. cbn [negb andb].
  unfold trim. rewrite fromFirst_trimEnd; [|reflexivity|].
  - rewrite includes_trimEnd by reflexivity.
    by rewrite fromFirst_trimStart.
  - by rewrite includes_trimStart.
Qed.

Lemma fixTruncatedJson_settles (s : jsstring) :
  looksTruncated (fixTruncatedJson s) = false.
Proof.
  rewrite fixTruncatedJson_eq. destruct (looksTruncated s) eqn:H; [|exact H].
  unfold looksTruncated.
  rewrite (includes_app_r _ originPlaceholder (js "}")) by reflexivity.
  by rewrite andb_false_r.
Qed.

Lemma fixTruncatedJson_idempotent (s : jsstring) :
  fixTruncatedJson (fixTruncatedJson s) = fixTruncatedJson s.
Proof.
  rewrite (fixTruncatedJson_eq (fixTruncatedJson s)).
  by rewrite fixTruncatedJson_settles.
Qed.

Lemma fixTruncatedJson_after_trim (s : jsstring) :
  fixTruncatedJson (trim (fixTruncatedJson s)) = trim (fixTruncatedJson s).
Proof.
  rewrite (fixTruncatedJson_eq (trim _)).
  by rewrite looksTruncated_trim, fixTruncatedJson_settles.
Qed.

Lemma stripControl_noControl (s : jsstring) : noControl (stripControl s).
Proof.
  unfold noControl, stripControl. apply List.Forall_forall.
  intros c Hc. apply filter_In in Hc as [_ Hc]. by apply negb_true_iff.
Qed.

Lemma stripControl_id (s : jsstring) : noControl s -> stripControl s = s.
Proof.
  unfold noControl, stripControl. induction 1 as [|c s Hc _ IH]; [done|].
  cbn [List.filter]. by rewrite Hc, IH.
Qed.

Lemma stripControl_idempotent (s : jsstring) :
  stripControl (stripControl s) = stripControl s.
Proof. apply stripControl_id, stripControl_noControl. Qed.

(** A pattern that does not occur is nowhere matched. *)
Section Unmatched.

Variable matchAt : jsstring -> option nat.
Variable head : jsstring.
Hypothesis matchAt_head : forall s n, matchAt s = Some n -> startsWith s head = true.

Lemma matchAt_absent (c : N) (s : jsstring) :
  includes (c :: s) head = false -> matchAt (c :: s) = None.
Proof using matchAt_head.
  intros H. apply includes_false_inv in H as [H _].
  destruct (matchAt (c :: s)) as [n|] eqn:Hm; [|done].
  apply matchAt_head in Hm. congruence.
Qed.

Lemma removeMatches_absent (s : jsstring) :
  includes s head = false -> removeMatches matchAt 0 s = s.
Proof using matchAt_head.
  induction s as [|c s IH]; [done|]. intros H.
  cbn [removeMatches]. rewrite (matchAt_absent c s H).
  apply includes_false_inv in H as [_ H]. by rewrite IH.
Qed.

Lemma allMatches_absent (s : jsstring) :
  includes s head = false -> allMatches matchAt 0 s = [].
Proof using matchAt_head.
  induction s as [|c s IH]; [done|]. intros H.
  cbn [allMatches]. rewrite (matchAt_absent c s H).
  apply includes_false_inv in H as [_ H]. by rewrite IH.
Qed.

End Unmatched.

Lemma matchPipWarning_head (s : jsstring) (n : nat) :
  matchPipWarning s = Some n -> startsWith s pipWarning = true.
Proof. unfold matchPipWarning. by destruct (startsWith s pipWarning). Qed.

Lemma matchLogLine_head (s : jsstring) (n : nat) :
  matchLogLine s = Some n -> startsWith s logPrefix = true.
Proof. unfold matchLogLine. by destruct (startsWith s logPrefix). Qed.

Lemma stripPipWarnings_id (s : jsstring) :
  includes s pipWarning = false -> stripPipWarnings s = s.
Proof. apply removeMatches_absent, matchPipWarning_head. Qed.

Lemma collapseLogLines_id (s : jsstring) :
  includes s logPrefix = false -> collapseLogLines s = s.
Proof.
  intros H. unfold collapseLogLines.
  by rewrite (allMatches_absent _ _ matchLogLine_head s H).
Qed.

Lemma prependTimeoutNotice_id (s : jsstring) :
  includes s timeoutMark = false -> prependTimeoutNotice s = s.
Proof. intros H. unfold prependTimeoutNotice. by rewrite H. Qed.

(** Every step keeps a property that holds of all code units of the text
    and of the literals the step adds. *)
Section Preserved.

Variable P : N -> Prop.

Lemma removeMatches_Forall (matchAt : jsstring -> option nat) (skip : nat) (s : jsstring) :
  Forall P s -> Forall P (removeMatches matchAt skip s).
Proof.
  intros H. revert skip. induction H as [|c s Hc Hs IH]; intros skip; [done|].
  cbn [removeMatches]. destruct skip; [|apply IH].
  destruct (matchAt (c :: s)) as [[|k]|]; first [apply IH | constructor; [done | apply IH]].
Qed.

Lemma allMatches_Forall (matchAt : jsstring -> option nat) (skip : nat) (s : jsstring) :
  Forall P s -> Forall (Forall P) (allMatches matchAt skip s).
Proof.
  intros H. revert skip. induction H as [|c s Hc Hs IH]; intros skip; [done|].
  cbn [allMatches]. destruct skip; [|apply IH].
  destruct (matchAt (c :: s)) as [[|k]|]; try apply IH.
  constructor; [|apply IH].
  apply Forall_take. by constructor.
Qed.

Lemma replaceFirst_Forall (pat rep s : jsstring) :
  Forall P rep -> Forall P s -> Forall P (replaceFirst pat rep s).
Proof.
  intros Hrep H. induction H as [|c s Hc Hs IH]; cbn [replaceFirst].
  - destruct (startsWith [] pat); [|done].
    apply Forall_app. split; [done | by apply Forall_drop].
  - destruct (startsWith (c :: s) pat).
    + apply Forall_app. split; [done | apply Forall_drop; by constructor].
    + by constructor.
Qed.

Lemma join_Forall (sep : jsstring) (l : list jsstring) :
  Forall P sep -> Forall (Forall P) l -> Forall P (join sep l).
Proof.
  intros Hsep H. induction H as [|x l Hx Hl IH]; [done|].
  cbn [join]. destruct l as [|y l]; [done|].
  apply Forall_app. split; [done|]. apply Forall_app. by split.
Qed.

Lemma beforeFirst_Forall (p s : jsstring) : Forall P s -> Forall P (beforeFirst p s).
Proof.
  induction 1 as [|c s Hc Hs IH]; cbn [beforeFirst].
  - by destruct (startsWith [] p).
  - destruct (startsWith (c :: s) p); by constructor.
Qed.

Lemma trimStart_Forall (s : jsstring) : Forall P s -> Forall P (trimStart s).
Proof.
  induction 1 as [|c s Hc Hs IH]; [done|].
  cbn [trimStart]. destruct (isWhiteSpace c); [done | by constructor].
Qed.

Lemma trimEnd_Forall (s : jsstring) : Forall P s -> Forall P (trimEnd s).
Proof.
  induction 1 as [|c s Hc Hs IH]; [done|].
  rewrite trimEnd_cons. destruct (trimEnd s).
  - destruct (isWhiteSpace c); by repeat constructor.
  - by constructor.
Qed.

Hypothesis P_separator : Forall P (js "~").
Hypothesis P_notice : Forall P timeoutNotice.
Hypothesis P_placeholder : Forall P originPlaceholder.

Lemma collapseLogLines_Forall (s : jsstring) : Forall P s -> Forall P (collapseLogLines s).
Proof using P_separator.
  intros H. unfold collapseLogLines.
  destruct (0 <? length (allMatches matchLogLine 0 s))%nat; [|done].
  apply join_Forall; [done|].
  apply List.Forall_map. eapply Forall_impl; [by apply allMatches_Forall|].
  intros line Hline. by apply replaceFirst_Forall.
Qed.

Lemma formatOutput_steps_Forall (s : jsstring) :
  Forall P s ->
  Forall P (trim (fixTruncatedJson (prependTimeoutNotice (collapseLogLines
    (stripPipWarnings s))))).
Proof using P_separator P_notice P_placeholder.
  intros H. unfold trim. apply trimEnd_Forall, trimStart_Forall.
  rewrite fixTruncatedJson_eq.
  assert (Hn : Forall P (prependTimeoutNotice (collapseLogLines (stripPipWarnings s)))).
  { unfold prependTimeoutNotice.
    assert (Hc : Forall P (collapseLogLines (stripPipWarnings s)))
      by by apply collapseLogLines_Forall, removeMatches_Forall.
    destruct (includes _ timeoutMark); [|done].
    apply Forall_app. by split. }
  destruct (looksTruncated _); [|done].
  apply Forall_app. split; [by apply beforeFirst_Forall | done].
Qed.

End Preserved.

Lemma formatOutput_noControl (x : jsstring) : noControl (formatOutput x).
Proof.
  unfold formatOutput, noControl.
  apply formatOutput_steps_Forall;
    [by repeat constructor.. | apply stripControl_noControl].
Qed.

(** *** formatOutput applied twice *)

Lemma prependTimeoutNotice_again (s : jsstring) :
  includes s timeoutMark = true ->
  prependTimeoutNotice (prependTimeoutNotice s) = timeoutNotice ++ timeoutNotice ++ s.
Proof.
  intros H. unfold prependTimeoutNotice. rewrite H.
  by rewrite (includes_app_r timeoutNotice s timeoutMark H).
Qed.

(** C4, as the code has it.  Stripping control characters, repairing a
    truncated JSON object and trimming are no-ops on their own result, and
    [formatOutput] is a no-op on its own result whenever that result holds
    neither the timeout mark, nor the log prefix, nor the pip warning.  The
    timeout step is not idempotent: on a text that holds the mark it puts
    the notice in front each time it runs. *)
Theorem formatOutput_idempotent_when_quiet (x : jsstring) :
  stripControl (stripControl x) = stripControl x
  /\ fixTruncatedJson (fixTruncatedJson x) = fixTruncatedJson x
  /\ trim (trim x) = trim x
  /\ (includes x timeoutMark = true ->
      prependTimeoutNotice (prependTimeoutNotice x) = timeoutNotice ++ timeoutNotice ++ x)
  /\ (includes (formatOutput x) timeoutMark = false ->
      includes (formatOutput x) logPrefix = false ->
      includes (formatOutput x) pipWarning = false ->
      formatOutput (formatOutput x) = formatOutput x).
Proof.
  split; [apply stripControl_idempotent|].
  split; [apply fixTruncatedJson_idempotent|].
  split; [apply trim_idempotent|].
  split; [apply prependTimeoutNotice_again|].
  intros Hmark Hlog Hpip.
  unfold formatOutput at 1.
  rewrite (stripControl_id _ (formatOutput_noControl x)).
  rewrite (stripPipWarnings_id _ Hpip), (collapseLogLines_id _ Hlog),
    (prependTimeoutNotice_id _ Hmark).
  unfold formatOutput.
  by rewrite fixTruncatedJson_after_trim, trim_idempotent.
Qed.

Lemma formatOutput_idempotent_when_quiet_witness :
  formatOutput (formatOutput (js "INFO:root:IP info: { ^origin^: ^1.2.3~"))
  = formatOutput (js "INFO:root:IP info: { ^origin^: ^1.2.3~")
  /\ formatOutput (js "INFO:root:IP info: { ^origin^: ^1.2.3~")
     = js "IP info: { ^origin^: ^[IP address]^ }".
Proof.
  split; [|reflexivity].
  apply (formatOutput_idempotent_when_quiet (js "INFO:root:IP info: { ^origin^: ^1.2.3~"));
    vm_compute; reflexivity.
Defined.

(** C4 as stated fails: on the output of a run that timed out, a second
    [formatOutput] puts a second notice in front. *)
Lemma formatOutput_not_idempotent :
  ~ (formatOutput (formatOutput (js "tick~~[Timeout]")) = formatOutput (js "tick~~[Timeout]")).
Proof. vm_compute. discriminate. Qed.

(** The two other steps that are not idempotent. *)
Example collapseLogLines_not_idempotent :
  collapseLogLines (js "INFO:root:INFO:root:x") = js "INFO:root:x"
  /\ collapseLogLines (js "INFO:root:x") = js "x".
Proof. split; reflexivity. Qed.

Example stripPipWarnings_not_idempotent :
  let nested := js "WARNING: Running pip as the 'roWARNING: Running pip as the 'root' user~ot' user~" in
  stripPipWarnings nested = js "WARNING: Running pip as the 'root' user~"
  /\ stripPipWarnings (stripPipWarnings nested) = [].
Proof. split; reflexivity. Qed.

Example formatOutput_plain : formatOutput (js "2~") = js "2".
Proof. reflexivity. Qed.

Example formatOutput_logs :
  formatOutput (js "INFO:root:start~noise~INFO:root:done~") = js "start~done".
Proof. reflexivity. Qed.

Example formatOutput_pip :
  formatOutput (js "WARNING: Running pip as the 'root' user can break~ok~") = js "ok".
Proof. reflexivity. Qed.

Example formatOutput_json :
  formatOutput (js "IP info: {  ^origin^: ^1.2.3") = js "IP info: { ^origin^: ^[IP address]^ }".
Proof. reflexivity. Qed.

(** The collapse of log lines drops the timeout mark, which stands on a
    line of its own. *)
Example formatOutput_logs_then_timeout :
  formatOutput (js "INFO:root:start~" ++ js "~[Timeout]") = js "start".
Proof. reflexivity. Qed.

(** ** wrapUserCode *)

Lemma strictEq_false (a b : jsstring) : a <> b -> strictEq a b = false.
Proof. intros H. unfold strictEq. by apply bool_decide_eq_false. Qed.

Lemma isPython_other (language : jsstring) :
  language <> js "python" -> isPython language = false.
Proof. apply strictEq_false. Qed.

Lemma isNode_other (language : jsstring) :
  language <> js "javascript" -> language <> js "node" -> isNode language = false.
Proof.
  intros H1 H2. unfold isNode. by rewrite !strictEq_false.
Qed.

(** C5, as the code has it: with the scenario [{}] the code comes back
    unchanged for every language, except that Python code which contains
    [import requests] gets the dependency bootstrap of line 99 in front. *)
Theorem wrapUserCode_empty_scenario (rt : runtime) (code language : jsstring) :
  wrapUserCode rt code emptyScenario language =
  if isPython language && includes code (js "import requests")
  then requestsBootstrap ++ code
  else code.
Proof.
  unfold wrapUserCode, emptyScenario; cbn [artificialDelayMs simulateCrash
    simulateHighCpu simulateMemoryLeak truthy].
  destruct (isPython language && includes code (js "import requests"));
    cbn [app]; by rewrite app_nil_r.
Qed.

(** C5 as stated fails: for Python code that imports [requests] the result
    of [wrapUserCode] with the scenario [{}] is not the code. *)
Lemma wrapUserCode_empty_scenario_not_identity :
  ~ (wrapUserCode exampleRuntime (js "import requests") emptyScenario (js "python")
     = js "import requests").
Proof. vm_compute. discriminate. Qed.

(** C10: for a language other than "python", "javascript" and "node",
    [wrapUserCode] returns the code unchanged whatever the scenario. *)
Theorem wrapUserCode_unrecognized_language (rt : runtime) (code : jsstring)
    (scenario : scenarioConfig) (language : jsstring) :
  language <> js "python" -> language <> js "javascript" -> language <> js "node" ->
  wrapUserCode rt code scenario language = code.
Proof.
  intros Hpy Hjs Hnode. unfold wrapUserCode.
  rewrite (isPython_other _ Hpy), (isNode_other _ Hjs Hnode).
  cbn [andb].
  repeat match goal with |- context [if ?b then _ else _] => destruct b end;
    cbn [app]; by rewrite app_nil_r.
Qed.

Lemma wrapUserCode_unrecognized_language_witness :
  wrapUserCode exampleRuntime (js "puts 1 + 1") allFaultsScenario (js "ruby")
  = js "puts 1 + 1".
Proof.
  apply (wrapUserCode_unrecognized_language exampleRuntime (js "puts 1 + 1")
           allFaultsScenario (js "ruby")); vm_compute; discriminate.
Defined.

(** ** runJob *)

Lemma prepareJob_unsupported_language (rt : runtime) (w : world) (job : Job.t) :
  isPython (Job.language job) = false -> isNode (Job.language job) = false ->
  prepareJob rt w job = ([TmpDirCreate], inl (js "Unsupported language")).
Proof.
  intros Hpy Hnode. unfold prepareJob. rewrite Hpy, Hnode. reflexivity.
Qed.

(** The trace of step 6 holds one [TmpDirRemove] when the [finally] block
    is reached and none otherwise. *)
Lemma runContainer_removes_tmpdir (w : world) (plan : launchPlan) :
  List.filter isTmpDirRemove (fst (runContainer w plan))
  = if reachesFinally w then [TmpDirRemove] else [].
Proof.
  unfold reachesFinally, launched.
  runContainer_cases w plan ltac:(reflexivity).
Qed.

(** Steps 1-5 complete when the language is recognized and the calls they
    make succeed. *)
Lemma prepareJob_completes (rt : runtime) (w : world) (job : Job.t) :
  isPython (Job.language job) || isNode (Job.language job) = true ->
  writeFileResult w = Ok ->
  createProxyResult w = Ok ->
  (forall ty, addToxicResult w ty = Ok) ->
  exists t plan, prepareJob rt w job = (t, inr plan).
Proof.
  intros Hlang Hwrite Hcreate Htoxic.
  unfold prepareJob, setupNetworkScenario, when. rewrite Hwrite, Hcreate, !Htoxic.
  destruct (isPython (Job.language job)); [|destruct (isNode (Job.language job)); [|done]];
    destruct (wantsProxy (Job.scenario job));
    destruct (truthy (networkLatencyMs (Job.scenario job))),
      (truthy (bandwidthKbps (Job.scenario job))),
      (truthy (timeoutMs (Job.scenario job)));
    by do 2 eexists.
Qed.

(** C7: when steps 1-5 and the launch of the container succeed and
    [container.wait()] resolves before the timer fires, [runJob] resolves
    with the formatted output and [success: true], whatever the status code
    of the program. *)
Theorem runJob_natural_exit (rt : runtime) (w : world) (job : Job.t)
    (t : list event) (plan : launchPlan) (statusCode : Z) :
  prepareJob rt w job = (t, inr plan) ->
  createContainerResult w = Ok -> attachResult w = Ok -> startResult w = Ok ->
  timing w = ExitBeforeTimer statusCode ->
  snd (runJob rt w job)
  = Some (Resolved {| output := formatOutput (captured w); success := true |}).
Proof.
  intros Hprep Hc Ha Hs Ht. unfold runJob, runContainer.
  rewrite Hprep, Hc, Ha, Hs, Ht. reflexivity.
Qed.

Lemma runJob_natural_exit_witness :
  snd (runJob exampleRuntime (worldOf (ExitBeforeTimer 1) (js "2~"))
         (jobOf (js "python") (js "print(1+1)") crashScenario))
  = Some (Resolved {| output := js "2"; success := true |}).
Proof.
  eapply (runJob_natural_exit exampleRuntime (worldOf (ExitBeforeTimer 1) (js "2~"))
            (jobOf (js "python") (js "print(1+1)") crashScenario) _ _ 1);
    vm_compute; reflexivity.
Defined.

(** Where the timer's callback (lines 213-218) does what it aims at: when
    steps 1-5 and the launch succeed, the timer fires before
    [container.wait()] settles and the [container.kill()] it issues returns
    before [wait()] settles, the container has been killed, the mark is
    appended to the captured output, and the promise is resolved with the
    formatted text and [success: false]; whatever [wait()] does afterwards,
    the promise is not rejected. *)
Lemma runJob_kill_returns_first (rt : runtime) (w : world) (job : Job.t)
    (t : list event) (plan : launchPlan) (wait : option waitOutcome) :
  prepareJob rt w job = (t, inr plan) ->
  createContainerResult w = Ok -> attachResult w = Ok -> startResult w = Ok ->
  timing w = TimerThenKill Ok wait ->
  In Kill (fst (runJob rt w job)) /\
  snd (runJob rt w job)
  = Some (Resolved {| output := formatOutput (captured w ++ js "~[Timeout]");
                      success := false |}).
Proof.
  intros Hprep Hc Ha Hs Ht. unfold runJob, runContainer.
  rewrite Hprep, Hc, Ha, Hs, Ht. cbn -[formatOutput js untilExit].
  destruct wait as [[c|m]|]; cbn -[formatOutput js]; split; try reflexivity;
    rewrite !in_app_iff; cbn; tauto.
Qed.

(** C3 at its failing inputs, four runs of a Python job that exceed the
    10 seconds.  When Docker refuses the kill, nothing handles the
    rejection in the timer's callback: the process ends with the promise
    pending, nothing appended and the temporary directory left.  When
    [container.wait()] settles while [kill()] is in flight, the container
    is killed and yet the promise is resolved with [success: true] and no
    mark, or rejected when [wait()] rejects.  When the program has written
    log lines, the promise is resolved with [success: false] and a text
    without the mark. *)
Theorem runJob_timeout_not_honoured :
  runJob exampleRuntime refusedKillWorld pythonJob
  = ([TmpDirCreate; WriteFile (js "usercode.py") (js "print(1+1)");
      CreateContainer (containerOptionsOf refusedKillWorld (planOf pythonJob false));
      Attach; Start; SetTimeout 10000; Wait; Kill; ProcessExit],
     None)
  /\ In Kill (fst (runJob exampleRuntime waitWinsWorld pythonJob))
  /\ snd (runJob exampleRuntime waitWinsWorld pythonJob)
     = Some (Resolved {| output := js "tick"; success := true |})
  /\ In Kill (fst (runJob exampleRuntime waitFailsWorld pythonJob))
  /\ snd (runJob exampleRuntime waitFailsWorld pythonJob)
     = Some (Rejected (js "socket hang up"))
  /\ In Kill (fst (runJob exampleRuntime loggingWorld pythonJob))
  /\ snd (runJob exampleRuntime loggingWorld pythonJob)
     = Some (Resolved {| output := js "tick"; success := false |})
  /\ includes (js "tick") timeoutMark = false.
Proof.
  repeat split; try reflexivity;
    vm_compute; repeat first [left; reflexivity | right].
Qed.

(** *** Provisioning calls in the trace *)

Lemma toxicsOf_provisioning (t : list event) :
  toxicsOf (List.filter isProvisioning t) = toxicsOf t.
Proof.
  unfold toxicsOf. induction t as [|e t IH]; [done|].
  destruct e; cbn; rewrite ?IH; reflexivity.
Qed.

Lemma In_CreateProxy_provisioning (t : list event) name listen up :
  In (CreateProxy name listen up) (List.filter isProvisioning t)
  <-> In (CreateProxy name listen up) t.
Proof. rewrite filter_In. cbn. tauto. Qed.

Lemma runContainer_provisions_nothing (w : world) (plan : launchPlan) :
  List.filter isProvisioning (fst (runContainer w plan)) = [].
Proof.
  runContainer_cases w plan ltac:(reflexivity).
Qed.

Lemma runJob_provisioning (rt : runtime) (w : world) (job : Job.t) :
  List.filter isProvisioning (fst (runJob rt w job))
  = List.filter isProvisioning (fst (prepareJob rt w job)).
Proof.
  unfold runJob. destruct (prepareJob rt w job) as [t [err|plan]]; [done|].
  pose proof (runContainer_provisions_nothing w plan) as H.
  destruct (runContainer w plan) as [t' p]. cbn in *.
  by rewrite List.filter_app, H, app_nil_r.
Qed.

(** What provisioning calls, in order: the proxy, then the toxics asked
    for, up to the first call that fails. *)
Lemma setupNetworkScenario_provisioning (w : world) (jobId : jsstring) (sc : scenarioConfig) :
  exists rest,
    List.filter isProvisioning (fst (setupNetworkScenario w jobId sc))
    = CreateProxy (js "sandbox_proxy_" ++ jobId) (js "0.0.0.0:8666")
        (orElse (upstream sc) (JStr (js "httpbin.org:80"))) :: rest
    /\ (createProxyResult w = Ok -> (forall ty, addToxicResult w ty = Ok) ->
        toxicsOf rest
        = (if truthy (networkLatencyMs sc) then [(latency, networkLatencyMs sc)] else [])
          ++ (if truthy (bandwidthKbps sc) then [(bandwidth, bandwidthKbps sc)] else [])
          ++ (if truthy (timeoutMs sc) then [(timeout, timeoutMs sc)] else [])).
Proof.
  unfold setupNetworkScenario, when.
  destruct (createProxyResult w) eqn:Hc.
  - destruct (addToxicResult w latency) eqn:H1, (addToxicResult w bandwidth) eqn:H2,
      (addToxicResult w timeout) eqn:H3;
      destruct (truthy (networkLatencyMs sc)), (truthy (bandwidthKbps sc)),
        (truthy (timeoutMs sc)); cbn -[js];
      (eexists; split; [reflexivity|]); intros _ Hall;
      first [reflexivity
            | rewrite Hall in H1; discriminate
            | rewrite Hall in H2; discriminate
            | rewrite Hall in H3; discriminate ].
  - cbn -[js]. eexists; split; [reflexivity|]. discriminate.
Qed.

Lemma prepareJob_provisioning (rt : runtime) (w : world) (job : Job.t) :
  isPython (Job.language job) || isNode (Job.language job) = true ->
  writeFileResult w = Ok ->
  List.filter isProvisioning (fst (prepareJob rt w job))
  = if wantsProxy (Job.scenario job)
    then List.filter isProvisioning
           (fst (setupNetworkScenario w (Job.id job) (Job.scenario job)))
    else [].
Proof.
  intros Hlang Hwrite. unfold prepareJob. rewrite Hwrite.
  destruct (isPython (Job.language job)); [|destruct (isNode (Job.language job)); [|done]];
    (destruct (wantsProxy (Job.scenario job));
     [ destruct (setupNetworkScenario w (Job.id job) (Job.scenario job)) as [ts [err|net]];
       cbn -[js]; rewrite ?app_nil_r; reflexivity
     | reflexivity ]).
Qed.

(** C9: in a [runJob] that gets as far as step 5 (recognized language,
    source file written), the proxy is created exactly when one of
    [networkLatencyMs], [bandwidthKbps], [timeoutMs] and [upstream] is set,
    that is, holds a truthy value; and when Toxiproxy accepts the calls, the
    toxics attached are those among latency, bandwidth and timeout whose
    field is set, each on its own, in that order. *)
Theorem proxy_provisioning (rt : runtime) (w : world) (job : Job.t) :
  isPython (Job.language job) || isNode (Job.language job) = true ->
  writeFileResult w = Ok ->
  let sc := Job.scenario job in
  let trace := fst (runJob rt w job) in
  ((exists name listen up, In (CreateProxy name listen up) trace)
   <-> (truthy (networkLatencyMs sc) = true \/ truthy (bandwidthKbps sc) = true
        \/ truthy (timeoutMs sc) = true \/ truthy (upstream sc) = true))
  /\ (createProxyResult w = Ok -> (forall ty, addToxicResult w ty = Ok) ->
      toxicsOf trace
      = (if truthy (networkLatencyMs sc) then [(latency, networkLatencyMs sc)] else [])
        ++ (if truthy (bandwidthKbps sc) then [(bandwidth, bandwidthKbps sc)] else [])
        ++ (if truthy (timeoutMs sc) then [(timeout, timeoutMs sc)] else [])).
Proof.
  intros Hlang Hwrite sc trace.
  assert (Hwants : wantsProxy sc = true
                   <-> (truthy (networkLatencyMs sc) = true \/ truthy (bandwidthKbps sc) = true
                        \/ truthy (timeoutMs sc) = true \/ truthy (upstream sc) = true)).
  { unfold wantsProxy. rewrite !orb_true_iff. tauto. }
  pose proof (runJob_provisioning rt w job) as Hrun.
  rewrite (prepareJob_provisioning rt w job Hlang Hwrite) in Hrun.
  fold sc trace in Hrun.
  destruct (setupNetworkScenario_provisioning w (Job.id job) sc) as (rest & Hsetup & Htoxics).
  split.
  - rewrite <- Hwants. split.
    + intros (name & listen & up & Hin).
      apply In_CreateProxy_provisioning in Hin. rewrite Hrun in Hin.
      destruct (wantsProxy sc); [reflexivity | destruct Hin].
    + intros Hw. rewrite Hw, Hsetup in Hrun.
      do 3 eexists. apply In_CreateProxy_provisioning. rewrite Hrun. left. reflexivity.
  - intros Hcreate Hall. rewrite <- toxicsOf_provisioning, Hrun.
    destruct (wantsProxy sc) eqn:Hw.
    + rewrite Hsetup. cbn [toxicsOf flat_map app]. by apply Htoxics.
    + unfold wantsProxy in Hw. rewrite !orb_false_iff in Hw.
      destruct Hw as [[[-> ->] ->] _]. reflexivity.
Qed.

Lemma proxy_provisioning_witness :
  (exists name listen up,
      In (CreateProxy name listen up) (fst (runJob exampleRuntime calmWorld slowNetJob)))
  /\ toxicsOf (fst (runJob exampleRuntime calmWorld slowNetJob))
     = [(latency, JNum (250 # 1)); (timeout, JNum (1000 # 1))].
Proof.
  destruct (proxy_provisioning exampleRuntime calmWorld slowNetJob eq_refl eq_refl)
    as [Htrigger Htoxics].
  split.
  - apply Htrigger. left. reflexivity.
  - apply Htoxics; [reflexivity | intros ty; reflexivity].
Defined.

(** C6, as the code has it: for a language that is not recognized [runJob]
    fails with "Unsupported language" before the source file is written,
    before any call to Toxiproxy and before any call to Docker; the
    temporary directory has been created by then (step 1 comes before the
    choice of the image in step 3). *)
Theorem runJob_unsupported_language (rt : runtime) (w : world) (job : Job.t) :
  Job.language job <> js "python" ->
  Job.language job <> js "javascript" ->
  Job.language job <> js "node" ->
  snd (runJob rt w job) = Some (Rejected (js "Unsupported language"))
  /\ In TmpDirCreate (fst (runJob rt w job))
  /\ Forall (fun e => isFileWrite e = false /\ isProxyEvent e = false
                      /\ isContainerEvent e = false)
       (fst (runJob rt w job)).
Proof.
  intros Hpy Hjs Hnode. unfold runJob.
  rewrite (prepareJob_unsupported_language rt w job
             (isPython_other _ Hpy) (isNode_other _ Hjs Hnode)).
  cbn [fst snd]. split; [reflexivity|]. split; [by left|].
  constructor; [by repeat split | constructor].
Qed.

Lemma runJob_unsupported_language_witness :
  snd (runJob exampleRuntime calmWorld rubyJob) = Some (Rejected (js "Unsupported language"))
  /\ In TmpDirCreate (fst (runJob exampleRuntime calmWorld rubyJob))
  /\ Forall (fun e => isFileWrite e = false /\ isProxyEvent e = false
                      /\ isContainerEvent e = false)
       (fst (runJob exampleRuntime calmWorld rubyJob)).
Proof.
  apply (runJob_unsupported_language exampleRuntime calmWorld rubyJob);
    vm_compute; discriminate.
Defined.

(** C6 as stated fails: with the language "ruby" the failure is raised
    after a resource has been provisioned, the temporary directory. *)
Lemma runJob_unsupported_language_after_tmpdir :
  ~ (snd (runJob exampleRuntime calmWorld rubyJob) = Some (Rejected (js "Unsupported language"))
     /\ Forall (fun e => provisions e = false) (fst (runJob exampleRuntime calmWorld rubyJob))).
Proof.
  intros [_ H]. vm_compute in H. inversion H; discriminate.
Qed.

(** C1 at its failing inputs: when the language check, the write of the
    source file or the provisioning of the proxy throws, [runJob] rejects
    with the temporary directory created and never removed, and in the last
    case with the proxy created and never deleted. *)
Theorem runJob_early_throw_skips_cleanup :
  runJob exampleRuntime calmWorld rubyJob
  = ([TmpDirCreate], Some (Rejected (js "Unsupported language")))
  /\ runJob exampleRuntime fullDiskWorld pythonJob
     = ([TmpDirCreate; WriteFile (js "usercode.py") (js "print(1+1)")],
        Some (Rejected (js "ENOSPC: no space left on device")))
  /\ runJob exampleRuntime brokenToxicWorld slowNetJob
     = ([TmpDirCreate; WriteFile (js "usercode.py") (js "print(1+1)");
         DeleteProxy (js "sandbox_proxy_job-1");
         CreateProxy (js "sandbox_proxy_job-1") (js "0.0.0.0:8666") (JStr (js "httpbin.org:80"));
         AddToxic latency (JNum (250 # 1))],
        Some (Rejected (js "HTTP 400"))).
Proof. split; [|split]; reflexivity. Qed.

(** ** The job store *)

Lemma sweepOne_lookup (now : Z) (jobs : jobStore) (a k : jsstring) :
  sweepOne now jobs a !! k
  = match jobs !! k with
    | Some job => if bool_decide (a = k) && expired now job then None else Some job
    | None => None
    end.
Proof.
  unfold sweepOne. destruct (decide (a = k)) as [->|Hne].
  - rewrite bool_decide_eq_true_2 by done. cbn [andb].
    destruct (jobs !! k) as [job|] eqn:Hk; [|by rewrite Hk].
    destruct (expired now job); [by rewrite lookup_delete_eq | by rewrite Hk].
  - rewrite bool_decide_eq_false_2 by done. cbn [andb].
    destruct (jobs !! a) as [ja|] eqn:Ha.
    + destruct (expired now ja); [rewrite lookup_delete_ne by done|];
        by destruct (jobs !! k).
    + by destruct (jobs !! k).
Qed.

Lemma sweep_fold_lookup (now : Z) (l : list jsstring) (jobs : jobStore) (k : jsstring) :
  foldl (sweepOne now) jobs l !! k
  = match jobs !! k with
    | Some job => if bool_decide (k ∈ l) && expired now job then None else Some job
    | None => None
    end.
Proof.
  revert jobs. induction l as [|a l IH]; intros jobs.
  - cbn [foldl]. destruct (jobs !! k); [|done].
    rewrite bool_decide_eq_false_2; [done | apply not_elem_of_nil].
  - cbn [foldl]. rewrite IH, sweepOne_lookup.
    destruct (jobs !! k) as [job|]; [|done].
    destruct (decide (a = k)) as [->|Hne].
    + rewrite (bool_decide_eq_true_2 (k = k)) by done.
      rewrite (bool_decide_eq_true_2 (k ∈ k :: l)) by constructor.
      cbn [andb]. destruct (expired now job) eqn:He; [done|].
      rewrite He. by rewrite andb_false_r.
    + rewrite (bool_decide_eq_false_2 (a = k)) by done. cbn [andb].
      destruct (decide (k ∈ l)) as [Hin|Hnin].
      * rewrite !bool_decide_eq_true_2; [done | by constructor | done].
      * rewrite !bool_decide_eq_false_2; [done | | done].
        rewrite elem_of_cons. intros [->|?]; done.
Qed.

(** What a sweep leaves of each record. *)
Lemma sweep_lookup (now : Z) (jobs : jobStore) (k : jsstring) :
  sweep now jobs !! k
  = match jobs !! k with
    | Some job => if expired now job then None else Some job
    | None => None
    end.
Proof.
  unfold sweep. rewrite sweep_fold_lookup.
  destruct (jobs !! k) as [job|] eqn:Hk; [|done].
  rewrite bool_decide_eq_true_2; [done|].
  apply elem_of_elements, elem_of_dom. by exists job.
Qed.

(** C8: the sweep, whose period is the retention window of one hour,
    deletes a record exactly when its [completedAt] lies before [now] minus
    the retention window; a record it does not delete it leaves as it is,
    and a record with no [completedAt] is never deleted. *)
Theorem sweep_deletes_expired (now : Z) (jobs : jobStore) (jobId : jsstring) (job : Job.t) :
  jobs !! jobId = Some job ->
  (sweep now jobs !! jobId = None
   <-> exists t, Job.completedAt job = Some t /\ t < now - retentionMs)
  /\ (sweep now jobs !! jobId = None \/ sweep now jobs !! jobId = Some job)
  /\ (Job.completedAt job = None -> sweep now jobs !! jobId = Some job)
  /\ sweepIntervalMs = retentionMs
  /\ retentionMs = 3600000.
Proof.
  intros Hjob. rewrite sweep_lookup, Hjob. unfold expired.
  repeat split.
  - destruct (Job.completedAt job) as [t|]; [|discriminate].
    destruct (Z.gtb_spec (now - t) retentionMs); [|discriminate].
    intros _. exists t. split; [done | lia].
  - intros (t & -> & Ht). destruct (Z.gtb_spec (now - t) retentionMs); [done | lia].
  - destruct (Job.completedAt job) as [t|]; [|by right].
    destruct (now - t >? retentionMs); [by left | by right].
  - by intros ->.
Qed.

Lemma sweep_deletes_expired_witness :
  sweep 3602001 storeAfterFinish !! js "job-1" = None
  /\ sweep 3602000 storeAfterFinish !! js "job-1" <> None
  /\ sweep 3602001 storeAfterRun !! js "job-1" <> None.
Proof.
  split; [|split].
  - edestruct (sweep_deletes_expired 3602001 storeAfterFinish (js "job-1"))
      as [[_ Hdel] _]; [vm_compute; reflexivity|].
    apply Hdel. eexists. split; vm_compute; reflexivity.
  - vm_compute. discriminate.
  - vm_compute. discriminate.
Defined.

(** *** What the handlers do to a record *)

Lemma update_lookup (jobId : jsstring) (f : Job.t -> Job.t) (jobs : jobStore) :
  update jobId f jobs !! jobId = f <$> jobs !! jobId.
Proof.
  unfold update. destruct (jobs !! jobId) as [job|] eqn:H.
  - by rewrite lookup_insert_eq.
  - by rewrite H.
Qed.

Lemma addJobLog_lookup (now : Z) (jobId message : jsstring) (jobs : jobStore) :
  addJobLog now jobId message jobs !! jobId
  = (fun job => setLogs (Job.logs job ++ [{| logTime := now; logMessage := message |}]) job)
      <$> jobs !! jobId.
Proof.
  unfold addJobLog. destruct (jobs !! jobId) as [job|] eqn:H.
  - by rewrite lookup_insert_eq.
  - by rewrite H.
Qed.

(** X3: the asynchronous flow writes its outcome over whatever status the
    record has when the promise of [runJob] settles; it does not look at
    the status first. *)
Lemma finishExecution_status (rt : runtime) (w : world) (now : Z) (jobId : jsstring)
    (jobs : jobStore) (job : Job.t) :
  jobs !! jobId = Some job ->
  Job.status <$> finishExecution rt w now jobId jobs !! jobId
  = Some match snd (runJob rt w job) with
         | Some (Resolved _) => completed
         | Some (Rejected _) => failed
         | None => Job.status job
         end.
Proof.
  intros Hjob. unfold finishExecution, failExecution. rewrite Hjob.
  destruct (snd (runJob rt w job)) as [[r|m]|];
    rewrite ?addJobLog_lookup, ?update_lookup, ?Hjob; reflexivity.
Qed.

Lemma finishExecution_status_witness :
  Job.status <$> finishExecution exampleRuntime calmWorld 2000 (js "job-1") storeAfterCancel
                   !! js "job-1"
  = Some completed.
Proof.
  eapply eq_trans;
    [ eapply (finishExecution_status exampleRuntime calmWorld 2000 (js "job-1") storeAfterCancel);
      vm_compute; reflexivity
    | vm_compute; reflexivity ].
Defined.

(** X2: cancel leaves a record alone once it is completed, failed or
    cancelled, and answers 400. *)
Lemma postCancel_finished (now : Z) (jobId : jsstring) (jobs : jobStore) (job : Job.t) :
  jobs !! jobId = Some job ->
  Job.status job <> queued -> Job.status job <> running ->
  postCancel now jobId jobs = (Refused 400 (js "Job is not running or queued."), jobs).
Proof.
  intros Hjob Hq Hr. unfold postCancel. rewrite Hjob.
  by destruct (Job.status job).
Qed.

Lemma postCancel_finished_witness :
  postCancel 3000 (js "job-1") storeAfterFinish
  = (Refused 400 (js "Job is not running or queued."), storeAfterFinish).
Proof.
  eapply (postCancel_finished 3000 (js "job-1") storeAfterFinish);
    [vm_compute; reflexivity | vm_compute; discriminate | vm_compute; discriminate].
Defined.

(** C2 at its failing input: a job cancelled while it runs is overwritten
    when the promise of [runJob] settles, to completed when it resolves and
    to failed when it rejects, with a new [completedAt] and a result. *)
Theorem cancelled_job_is_overwritten :
  Job.status <$> storeAfterRun !! js "job-1" = Some running
  /\ Job.status <$> storeAfterCancel !! js "job-1" = Some cancelled
  /\ Job.completedAt <$> storeAfterCancel !! js "job-1" = Some (Some 1000)
  /\ Job.status <$> storeAfterFinish !! js "job-1" = Some completed
  /\ Job.completedAt <$> storeAfterFinish !! js "job-1" = Some (Some 2000)
  /\ Job.result <$> storeAfterFinish !! js "job-1" = Some (Some (ResultOutput (js "2")))
  /\ Job.status <$> storeAfterFailure !! js "job-1" = Some failed
  /\ Job.result <$> storeAfterFailure !! js "job-1"
     = Some (Some (ResultError (js "socket hang up"))).
Proof. repeat split; vm_compute; reflexivity. Qed.

(** ** The job routes, request by request *)

Lemma update_found (jobId : jsstring) (f : Job.t -> Job.t) (jobs : jobStore) (job : Job.t) :
  jobs !! jobId = Some job -> update jobId f jobs = <[jobId := f job]> jobs.
Proof. intros H. unfold update. by rewrite H. Qed.

Lemma addJobLog_found (now : Z) (jobId message : jsstring) (jobs : jobStore) (job : Job.t) :
  jobs !! jobId = Some job ->
  addJobLog now jobId message jobs = <[jobId := logged now message job]> jobs.
Proof. intros H. unfold addJobLog. by rewrite H. Qed.

Lemma update_insert (jobId : jsstring) (f : Job.t -> Job.t) (jobs : jobStore) (job : Job.t) :
  update jobId f (<[jobId := job]> jobs) = <[jobId := f job]> jobs.
Proof.
  rewrite (update_found jobId f _ job) by apply lookup_insert_eq.
  apply insert_insert_eq.
Qed.

Lemma addJobLog_insert (now : Z) (jobId message : jsstring) (jobs : jobStore) (job : Job.t) :
  addJobLog now jobId message (<[jobId := job]> jobs)
  = <[jobId := logged now message job]> jobs.
Proof.
  rewrite (addJobLog_found now jobId message _ job) by apply lookup_insert_eq.
  apply insert_insert_eq.
Qed.

Lemma postRun_store (now : Z) (jobId language code : jsstring)
    (scenario : scenarioConfig) (jobs : jobStore) :
  language <> [] -> code <> [] ->
  postRun now jobId language code (Some scenario) jobs
  = (Accepted jobId queued, <[jobId := filedJob now jobId language code scenario]> jobs).
Proof.
  intros Hl Hc. unfold postRun, startExecution, filedJob, failExecution, rejectsAtOnce.
  rewrite !bool_decide_eq_false_2 by done. cbn [orb Job.language freshJob]. f_equal.
  rewrite addJobLog_insert, update_insert, addJobLog_insert.
  destruct (isPython language || isNode language); [done|].
  by rewrite !update_insert, addJobLog_insert.
Qed.

Lemma postCancel_store (now : Z) (jobId : jsstring) (jobs : jobStore) (job : Job.t) :
  jobs !! jobId = Some job ->
  Job.status job = queued \/ Job.status job = running ->
  postCancel now jobId jobs
  = (Accepted jobId cancelled,
     <[jobId := logged now (js "Job was cancelled by user.")
                  (setCompletedAt now (setStatus cancelled job))]> jobs).
Proof.
  intros Hjob Hst. unfold postCancel. rewrite Hjob.
  assert (Hstore :
    addJobLog now jobId (js "Job was cancelled by user.")
      (update jobId (setCompletedAt now) (update jobId (setStatus cancelled) jobs))
    = <[jobId := logged now (js "Job was cancelled by user.")
                   (setCompletedAt now (setStatus cancelled job))]> jobs).
  { by rewrite (update_found _ _ _ _ Hjob), update_insert, addJobLog_insert. }
  destruct Hst as [-> | ->]; by rewrite Hstore.
Qed.

Lemma finishExecution_store (rt : runtime) (w : world) (now : Z) (jobId : jsstring)
    (jobs : jobStore) (job : Job.t) :
  jobs !! jobId = Some job ->
  finishExecution rt w now jobId jobs
  = match snd (runJob rt w job) with
    | Some (Resolved result) =>
        <[jobId := logged now (js "Execution completed.")
                     (setResult (ResultOutput (output result))
                        (setCompletedAt now (setStatus completed job)))]> jobs
    | Some (Rejected message) => <[jobId := failedJob now message job]> jobs
    | None => jobs
    end.
Proof.
  intros Hjob. unfold finishExecution, failExecution, failedJob. rewrite Hjob.
  destruct (snd (runJob rt w job)) as [[result|message]|]; [| |done];
    by rewrite (update_found _ _ _ _ Hjob), !update_insert, addJobLog_insert.
Qed.

(** X4: a submission with all three fields is answered with status
    "queued".  For a language [runJob] knows, the record is already
    "running" when the handler returns, the asynchronous flow having run up
    to its first [await]: a status or logs request that follows sees
    "running", no result, and the two opening log lines.  For any other
    language [runJob] has rejected before its first [await] and the flow
    has filed the failure before the next request is served: that request
    sees "failed", a [completedAt], the error "Unsupported language" and a
    third log line. *)
Theorem postRun_accepted (now : Z) (jobId language code : jsstring)
    (scenario : scenarioConfig) (jobs : jobStore) :
  language <> [] -> code <> [] ->
  let jobs' := snd (postRun now jobId language code (Some scenario) jobs) in
  let opening := [ {| logTime := now; logMessage := js "Job created and queued." |};
                   {| logTime := now; logMessage := js "Job execution started." |} ] in
  fst (postRun now jobId language code (Some scenario) jobs) = Accepted jobId queued
  /\ if isPython language || isNode language
     then getStatus jobId jobs'
          = Body {| summaryJobId := jobId; summaryStatus := running;
                    summaryCreatedAt := now; summaryCompletedAt := None |}
          /\ getLogs jobId jobs'
             = Body {| logsJobId := jobId; logsStatus := running;
                       logsLines := opening; logsResult := None |}
     else getStatus jobId jobs'
          = Body {| summaryJobId := jobId; summaryStatus := failed;
                    summaryCreatedAt := now; summaryCompletedAt := Some now |}
          /\ getLogs jobId jobs'
             = Body {| logsJobId := jobId; logsStatus := failed;
                       logsLines :=
                         opening
                         ++ [ {| logTime := now;
                                 logMessage :=
                                   js "Execution failed: Unsupported language" |} ];
                       logsResult := Some (ResultError (js "Unsupported language")) |}.
Proof.
  intros Hl Hc jobs' opening. unfold jobs'.
  rewrite (postRun_store now jobId language code scenario jobs Hl Hc).
  cbn [fst snd]. split; [done|].
  unfold getStatus, getLogs, filedJob, rejectsAtOnce. rewrite lookup_insert_eq.
  cbn [freshJob Job.language].
  by destruct (isPython language || isNode language).
Qed.

Lemma postRun_accepted_witness :
  getStatus (js "job-1") storeAfterRun
  = Body {| summaryJobId := js "job-1"; summaryStatus := running;
            summaryCreatedAt := 0; summaryCompletedAt := None |}
  /\ getStatus (js "job-2") rubyStoreAfterRun
     = Body {| summaryJobId := js "job-2"; summaryStatus := failed;
               summaryCreatedAt := 0; summaryCompletedAt := Some 0 |}.
Proof.
  split.
  - refine (proj1 (proj2 (postRun_accepted 0 (js "job-1") (js "python") (js "print(1+1)")
                            emptyScenario ∅ _ _))); vm_compute; discriminate.
  - refine (proj1 (proj2 (postRun_accepted 0 (js "job-2") (js "ruby") (js "puts 1 + 1")
                            emptyScenario ∅ _ _))); vm_compute; discriminate.
Defined.

(** X5: a submission is answered 400 exactly when it lacks the language,
    the code or the scenario, and then it files nothing. *)
Theorem postRun_missing_field (now : Z) (jobId language code : jsstring)
    (scenario : option scenarioConfig) (jobs : jobStore) :
  (language = [] \/ code = [] \/ scenario = None
   <-> fst (postRun now jobId language code scenario jobs)
       = Refused 400 (js "Missing required fields."))
  /\ (language = [] \/ code = [] \/ scenario = None ->
      snd (postRun now jobId language code scenario jobs) = jobs).
Proof.
  assert (Hmiss : language = [] \/ code = [] \/ scenario = None ->
                  postRun now jobId language code scenario jobs
                  = (Refused 400 (js "Missing required fields."), jobs)).
  { intros H. unfold postRun. destruct scenario as [sc|]; [|done].
    destruct H as [-> | [-> | H]]; [done | | done].
    by rewrite orb_true_r. }
  split; [split|]; [by intros H; rewrite (Hmiss H) | | by intros H; rewrite (Hmiss H)].
  destruct scenario as [sc|]; [|tauto].
  destruct language as [|a l]; [tauto|]. destruct code as [|b c]; [tauto|].
  rewrite (postRun_store now jobId (a :: l) (b :: c) sc jobs) by done. discriminate.
Qed.

Lemma postRun_missing_field_witness :
  snd (postRun 5000 (js "job-9") (js "python") [] (Some emptyScenario) storeAfterRun)
  = storeAfterRun.
Proof.
  apply (postRun_missing_field 5000 (js "job-9") (js "python") [] (Some emptyScenario)
           storeAfterRun).
  right. left. reflexivity.
Defined.

Lemma handle_frame (jobs : jobStore) (r : request) (jobId other : jsstring) :
  targetOf r = Some jobId -> other <> jobId ->
  handle jobs r !! other = jobs !! other.
Proof.
  intros Htarget Hne. destruct r as [now id language code scenario|rt w now id|now id|now];
    cbn in Htarget; try discriminate; injection Htarget as ->; cbn [handle].
  - unfold postRun. destruct scenario as [sc|]; [|done].
    destruct (bool_decide (language = []) || bool_decide (code = [])) eqn:Hmiss; [done|].
    apply orb_false_elim in Hmiss as [Hl Hc].
    apply bool_decide_eq_false in Hl, Hc.
    pose proof (postRun_store now jobId language code sc jobs Hl Hc) as Hrun.
    unfold postRun in Hrun. rewrite !bool_decide_eq_false_2 in Hrun by done.
    cbn [orb] in Hrun. rewrite Hrun. cbn [snd]. by rewrite lookup_insert_ne.
  - destruct (jobs !! jobId) as [job|] eqn:Hjob.
    + rewrite (finishExecution_store rt w now jobId jobs job Hjob).
      destruct (snd (runJob rt w job)) as [[?|?]|]; by rewrite ?lookup_insert_ne.
    + unfold finishExecution. by rewrite Hjob.
  - destruct (jobs !! jobId) as [job|] eqn:Hjob.
    + destruct (Job.status job) eqn:Hst;
        first [ rewrite (postCancel_store now jobId jobs job Hjob) by tauto;
                cbn [snd]; by rewrite lookup_insert_ne
              | unfold postCancel; by rewrite Hjob, Hst ].
    + unfold postCancel. by rewrite Hjob.
Qed.

(** X6: a submission, a settling and a cancel change no record but that of
    their own job. *)
Theorem handle_other_jobs (jobs : jobStore) (r : request) (jobId other : jsstring) :
  targetOf r = Some jobId -> other <> jobId ->
  handle jobs r !! other = jobs !! other.
Proof. apply handle_frame. Qed.

Lemma handle_other_jobs_witness :
  handle storeAfterRun (Submit 10 (js "job-7") (js "node") (js "1+1") (Some emptyScenario))
    !! js "job-1"
  = storeAfterRun !! js "job-1".
Proof.
  apply (handle_other_jobs storeAfterRun
           (Submit 10 (js "job-7") (js "node") (js "1+1") (Some emptyScenario))
           (js "job-7") (js "job-1")); [reflexivity | vm_compute; discriminate].
Defined.

(** X7: once the sweep has deleted a job, status, logs and cancel answer 404
    with "Job not found.", cancel changes nothing, and the settling of the
    job's flow, should it still be running, changes nothing either. *)
Theorem swept_job_is_gone (rt : runtime) (w : world) (now later : Z) (jobId : jsstring)
    (jobs : jobStore) (job : Job.t) (t : Z) :
  jobs !! jobId = Some job ->
  Job.completedAt job = Some t -> t < now - retentionMs ->
  let swept := sweep now jobs in
  getStatus jobId swept = Failure 404 (js "Job not found.")
  /\ getLogs jobId swept = Failure 404 (js "Job not found.")
  /\ postCancel later jobId swept = (Refused 404 (js "Job not found."), swept)
  /\ finishExecution rt w later jobId swept = swept.
Proof.
  intros Hjob Hdone Hold swept.
  assert (H : swept !! jobId = None).
  { unfold swept. rewrite sweep_lookup, Hjob. unfold expired. rewrite Hdone.
    destruct (Z.gtb_spec (now - t) retentionMs); [done | lia]. }
  unfold getStatus, getLogs, postCancel, finishExecution. by rewrite H.
Qed.

Lemma swept_job_is_gone_witness :
  getStatus (js "job-1") (sweep 3602001 storeAfterFinish) = Failure 404 (js "Job not found.")
  /\ postCancel 3602002 (js "job-1") (sweep 3602001 storeAfterFinish)
     = (Refused 404 (js "Job not found."), sweep 3602001 storeAfterFinish).
Proof.
  edestruct (swept_job_is_gone exampleRuntime calmWorld 3602001 3602002 (js "job-1")
               storeAfterFinish) as (Hs & _ & Hc & _);
    [vm_compute; reflexivity | vm_compute; reflexivity | vm_compute; reflexivity |].
  split; [exact Hs | exact Hc].
Defined.

(** X8: cancelling a job that is queued or running answers "cancelled",
    marks the record cancelled with [completedAt] set to the time of the
    request, adds one log line and touches nothing else of the record; a
    second cancel is answered 400 and changes nothing. *)
Theorem postCancel_active (now later : Z) (jobId : jsstring) (jobs : jobStore) (job : Job.t) :
  jobs !! jobId = Some job ->
  Job.status job = queued \/ Job.status job = running ->
  let cancelledJob :=
    {| Job.id := Job.id job; Job.status := cancelled; Job.language := Job.language job;
       Job.code := Job.code job; Job.scenario := Job.scenario job;
       Job.logs := Job.logs job
                   ++ [{| logTime := now; logMessage := js "Job was cancelled by user." |}];
       Job.result := Job.result job; Job.createdAt := Job.createdAt job;
       Job.completedAt := Some now |} in
  fst (postCancel now jobId jobs) = Accepted jobId cancelled
  /\ snd (postCancel now jobId jobs) = <[jobId := cancelledJob]> jobs
  /\ postCancel later jobId (snd (postCancel now jobId jobs))
     = (Refused 400 (js "Job is not running or queued."), snd (postCancel now jobId jobs)).
Proof.
  intros Hjob Hst cancelledJob.
  rewrite (postCancel_store now jobId jobs job Hjob Hst). cbn [fst snd].
  split; [done|]. split; [done|].
  unfold postCancel. by rewrite lookup_insert_eq.
Qed.

Lemma postCancel_active_witness :
  fst (postCancel 1000 (js "job-1") storeAfterRun) = Accepted (js "job-1") cancelled
  /\ postCancel 1500 (js "job-1") storeAfterCancel
     = (Refused 400 (js "Job is not running or queued."), storeAfterCancel).
Proof.
  edestruct (postCancel_active 1000 1500 (js "job-1") storeAfterRun) as (Hr & _ & Hagain);
    [vm_compute; reflexivity | right; vm_compute; reflexivity |].
  split; [exact Hr | exact Hagain].
Defined.

(** *** What every record of the store satisfies *)

Lemma freshJob_coherent (now : Z) (jobId language code : jsstring) (sc : scenarioConfig) :
  coherent jobId (freshJob now jobId language code sc).
Proof. repeat split. by exists []. Qed.

Lemma logged_messages (now : Z) (message : jsstring) (job : Job.t) (rest : list jsstring) :
  List.map logMessage (Job.logs job) = openingMessages ++ rest ->
  List.map logMessage (Job.logs (logged now message job))
  = openingMessages ++ (rest ++ [message]).
Proof.
  intros H. unfold logged. cbn [setLogs Job.logs].
  by rewrite List.map_app, H, <- app_assoc.
Qed.

Lemma filedJob_coherent (now : Z) (jobId language code : jsstring) (sc : scenarioConfig) :
  coherent jobId (filedJob now jobId language code sc).
Proof.
  unfold filedJob. destruct (rejectsAtOnce _) as [message|]; [|apply freshJob_coherent].
  repeat split; [by eexists | done | by eexists].
Qed.

Lemma handle_coherent (jobs : jobStore) (r : request) :
  (forall k job, jobs !! k = Some job -> coherent k job) ->
  forall k job, handle jobs r !! k = Some job -> coherent k job.
Proof.
  intros Hall k job.
  destruct r as [now id language code scenario|rt w now id|now id|now]; cbn [handle].
  - destruct scenario as [sc|]; [|apply Hall].
    destruct language as [|a l]; [apply Hall|]. destruct code as [|b c].
    { unfold postRun. rewrite orb_true_r. apply Hall. }
    rewrite (postRun_store now id (a :: l) (b :: c) sc jobs) by done. cbn [snd].
    destruct (decide (id = k)) as [->|Hne].
    + rewrite lookup_insert_eq. intros [= <-]. apply filedJob_coherent.
    + rewrite lookup_insert_ne by done. apply Hall.
  - destruct (jobs !! id) as [old|] eqn:Hold;
      [|unfold finishExecution; rewrite Hold; apply Hall].
    rewrite (finishExecution_store rt w now id jobs old Hold).
    destruct (Hall id old Hold) as (Hid & [rest Hlogs] & _).
    unfold failedJob.
    destruct (snd (runJob rt w old)) as [[result|message]|]; [| |apply Hall];
      (destruct (decide (id = k)) as [->|Hne];
       [ rewrite lookup_insert_eq; intros [= <-];
         split; [exact Hid|]; split;
         [ eexists; by apply logged_messages | cbn; split; [done | by eexists] ]
       | rewrite lookup_insert_ne by done; apply Hall ]).
  - destruct (jobs !! id) as [old|] eqn:Hold;
      [|unfold postCancel; rewrite Hold; apply Hall].
    destruct (Hall id old Hold) as (Hid & [rest Hlogs] & Hst).
    destruct (Job.status old) eqn:Hstatus;
      try (unfold postCancel; rewrite Hold, Hstatus; apply Hall);
      (rewrite (postCancel_store now id jobs old Hold) by tauto; cbn [snd];
       destruct (decide (id = k)) as [->|Hne];
       [ rewrite lookup_insert_eq; intros [= <-];
         split; [exact Hid|]; split;
         [ eexists; by apply logged_messages | cbn; split; [done | apply Hst] ]
       | rewrite lookup_insert_ne by done; apply Hall ]).
  - rewrite sweep_lookup. destruct (jobs !! k) as [old|] eqn:Hold; [|done].
    destruct (expired now old); [done|]. intros [= <-]. by apply Hall.
Qed.

(** X9: whatever requests have been served, every record of the store is
    filed under its own id, its log starts with "Job created and queued."
    and "Job execution started.", it has a [completedAt] exactly when it is
    completed, failed or cancelled, and it has a result exactly when it is
    completed (an output) or failed (an error). *)
Theorem serve_coherent (rs : list request) (jobId : jsstring) (job : Job.t) :
  serve rs !! jobId = Some job -> coherent jobId job.
Proof.
  unfold serve. revert jobId job.
  induction rs as [|r rs IH] using rev_ind; intros jobId job.
  - cbn. by rewrite lookup_empty.
  - rewrite foldl_snoc. by apply handle_coherent.
Qed.

Lemma serve_coherent_witness :
  coherent (js "job-1")
    {| Job.id := js "job-1"; Job.status := cancelled; Job.language := js "python";
       Job.code := js "print(1+1)"; Job.scenario := emptyScenario;
       Job.logs := [ {| logTime := 0; logMessage := js "Job created and queued." |};
                     {| logTime := 0; logMessage := js "Job execution started." |};
                     {| logTime := 1000; logMessage := js "Job was cancelled by user." |} ];
       Job.result := None; Job.createdAt := 0; Job.completedAt := Some 1000 |}.
Proof.
  apply (serve_coherent
           [Submit 0 (js "job-1") (js "python") (js "print(1+1)") (Some emptyScenario);
            Cancel 1000 (js "job-1")]).
  vm_compute. reflexivity.
Defined.

(** X10: a settling, a cancel, a sweep and the submission of another job
    never rewrite what a record was filed with: its id, language, code,
    scenario and [createdAt] stay, and its log only grows, by at most one
    line per request. *)
Theorem handle_keeps_record (jobs : jobStore) (r : request) (jobId : jsstring)
    (job job' : Job.t) :
  (forall now language code scenario, r <> Submit now jobId language code scenario) ->
  jobs !! jobId = Some job ->
  handle jobs r !! jobId = Some job' ->
  Job.id job' = Job.id job
  /\ Job.language job' = Job.language job
  /\ Job.code job' = Job.code job
  /\ Job.scenario job' = Job.scenario job
  /\ Job.createdAt job' = Job.createdAt job
  /\ exists added, Job.logs job' = Job.logs job ++ added /\ (length added <= 1)%nat.
Proof.
  intros Hother Hjob.
  assert (Hsame : job' = job ->
    Job.id job' = Job.id job /\ Job.language job' = Job.language job
    /\ Job.code job' = Job.code job /\ Job.scenario job' = Job.scenario job
    /\ Job.createdAt job' = Job.createdAt job
    /\ exists added, Job.logs job' = Job.logs job ++ added /\ (length added <= 1)%nat).
  { intros ->. repeat split. exists []. by rewrite app_nil_r; cbn; split; [|lia]. }
  destruct r as [now id language code scenario|rt w now id|now id|now].
  - destruct (decide (id = jobId)) as [->|Hne]; [by destruct (Hother now language code scenario)|].
    rewrite (handle_frame jobs _ id jobId) by done.
    rewrite Hjob. intros [= <-]. by apply Hsame.
  - destruct (decide (id = jobId)) as [->|Hne].
    + cbn [handle]. rewrite (finishExecution_store rt w now jobId jobs job Hjob).
      destruct (snd (runJob rt w job)) as [[result|message]|];
        [ rewrite lookup_insert_eq; intros [= <-]; repeat split;
          eexists; split; [reflexivity | cbn; lia] ..
        | rewrite Hjob; intros [= <-]; by apply Hsame ].
    + rewrite (handle_frame jobs _ id jobId) by done.
      rewrite Hjob. intros [= <-]. by apply Hsame.
  - destruct (decide (id = jobId)) as [->|Hne].
    + cbn [handle]. destruct (Job.status job) eqn:Hst;
        first [ rewrite (postCancel_store now jobId jobs job Hjob) by tauto; cbn [snd];
                rewrite lookup_insert_eq; intros [= <-]; repeat split;
                eexists; split; [reflexivity | cbn; lia]
              | unfold postCancel; rewrite Hjob, Hst; cbn [snd];
                rewrite Hjob; intros [= <-]; by apply Hsame ].
    + rewrite (handle_frame jobs _ id jobId) by done.
      rewrite Hjob. intros [= <-]. by apply Hsame.
  - cbn [handle]. rewrite sweep_lookup, Hjob.
    destruct (expired now job); [done|]. intros [= <-]. by apply Hsame.
Qed.

Lemma handle_keeps_record_witness :
  exists added,
    Job.logs (logged 1000 (js "Job was cancelled by user.")
                (setCompletedAt 1000 (setStatus cancelled
                   (freshJob 0 (js "job-1") (js "python") (js "print(1+1)") emptyScenario))))
    = Job.logs (freshJob 0 (js "job-1") (js "python") (js "print(1+1)") emptyScenario)
      ++ added
    /\ (length added <= 1)%nat.
Proof.
  edestruct (handle_keeps_record storeAfterRun (Cancel 1000 (js "job-1")) (js "job-1"))
    as (_ & _ & _ & _ & _ & Hlogs);
    [ intros; discriminate | vm_compute; reflexivity | vm_compute; reflexivity |].
  exact Hlogs.
Defined.

(** X11: the sweep only deletes; a second sweep at the same time deletes
    nothing more, and a sweep followed by a later sweep leaves what the
    later sweep alone leaves. *)
Theorem sweep_again (now later : Z) (jobs : jobStore) :
  now <= later ->
  sweep now jobs ⊆ jobs
  /\ sweep now (sweep now jobs) = sweep now jobs
  /\ sweep later (sweep now jobs) = sweep later jobs.
Proof.
  intros Hle.
  assert (Hmono : forall job, expired now job = true -> expired later job = true).
  { intros job. unfold expired. destruct (Job.completedAt job) as [t|]; [|done].
    destruct (Z.gtb_spec (now - t) retentionMs); [|done].
    destruct (Z.gtb_spec (later - t) retentionMs); [done | lia]. }
  split; [|split].
  - apply map_subseteq_spec. intros k job. rewrite sweep_lookup.
    destruct (jobs !! k) as [old|]; [|done]. by destruct (expired now old).
  - apply map_eq. intros k. rewrite !sweep_lookup.
    destruct (jobs !! k) as [job|]; [|done].
    destruct (expired now job) eqn:He; [done|]. by rewrite He.
  - apply map_eq. intros k. rewrite !sweep_lookup.
    destruct (jobs !! k) as [job|]; [|done].
    destruct (expired now job) eqn:He; [|done]. by rewrite (Hmono job He).
Qed.

Lemma sweep_again_witness :
  sweep 3602001 (sweep 3602001 storeAfterFinish) = sweep 3602001 storeAfterFinish.
Proof.
  apply (sweep_again 3602001 3602001 storeAfterFinish). reflexivity.
Defined.

(** ** The reading routes *)

Lemma statusText_inj (a b : jobStatus) : statusText a = statusText b -> a = b.
Proof. destruct a, b; first [reflexivity | vm_compute; discriminate]. Qed.

Lemma fmap_is_map {A B : Type} (f : A -> B) (l : list A) : f <$> l = List.map f l.
Proof. induction l as [|a l IH]; [done|]. cbn. by rewrite IH. Qed.

(** X12: the job list holds one summary per record of the store, each job
    once; with a status filter it holds exactly the summaries of the jobs
    in that status, so a filter that names no status gives the empty
    list. *)
Theorem getJobs_lists (status : jsstring) (jobs : jobStore) (s : jobSummary) :
  (In s (getJobs status jobs)
   <-> exists jobId job,
         jobs !! jobId = Some job /\ s = summaryOf jobId job
         /\ (status = [] \/ statusText (Job.status job) = status))
  /\ List.NoDup (List.map summaryJobId (getJobs status jobs))
  /\ length (getJobs [] jobs) = size jobs
  /\ ((forall st, statusText st <> status) -> status <> [] -> getJobs status jobs = []).
Proof.
  unfold getJobs.
  assert (Hentries : forall k job, In (k, job) (map_to_list jobs) <-> jobs !! k = Some job).
  { intros k job. rewrite <- list_elem_of_In. apply elem_of_map_to_list. }
  split; [|split; [|split]].
  - rewrite in_map_iff. split.
    + intros ([k job] & <- & Hin). exists k, job. cbn [fst snd].
      destruct (decide (status = [])) as [->|Hne].
      * rewrite bool_decide_eq_true_2 in Hin by done. cbn [negb] in Hin.
        apply Hentries in Hin. tauto.
      * rewrite bool_decide_eq_false_2 in Hin by done. cbn [negb] in Hin.
        apply filter_In in Hin as [Hin Heq]. cbn [snd] in Heq.
        apply bool_decide_eq_true in Heq. apply Hentries in Hin. tauto.
    + intros (k & job & Hjob & -> & Hst). exists (k, job). split; [done|].
      apply Hentries in Hjob.
      destruct (decide (status = [])) as [->|Hne].
      * by rewrite bool_decide_eq_true_2.
      * rewrite bool_decide_eq_false_2 by done. cbn [negb].
        apply filter_In. split; [done|]. cbn [snd].
        apply bool_decide_eq_true. tauto.
  - rewrite List.map_map. cbn [summaryOf summaryJobId].
    pose proof (NoDup_fst_map_to_list jobs) as Hnd.
    apply NoDup_ListNoDup in Hnd. rewrite fmap_is_map in Hnd.
    destruct (negb (bool_decide (status = []))); [|exact Hnd].
    revert Hnd. generalize (map_to_list jobs). intros l.
    induction l as [|e l IH]; [done|]. cbn [List.map List.filter].
    intros Hnd. inversion Hnd as [|x xs Hnotin Hrest]; subst.
    destruct (strictEq _ status); [|by apply IH].
    cbn [List.map]. constructor; [|by apply IH].
    intros Hin. apply Hnotin. apply in_map_iff in Hin as (e' & He' & Hin).
    apply filter_In in Hin as [Hin _]. apply in_map_iff. by exists e'.
  - rewrite bool_decide_eq_true_2 by done. cbn [negb].
    by rewrite length_map, length_map_to_list.
  - intros Hnone Hne. rewrite bool_decide_eq_false_2 by done. cbn [negb].
    assert (Hnil : List.filter
              (fun entry : jsstring * Job.t =>
                 strictEq (statusText (Job.status (snd entry))) status)
              (map_to_list jobs) = []).
    { clear Hentries. induction (map_to_list jobs) as [|e l IH]; [done|]. cbn [List.filter].
      rewrite strictEq_false by apply Hnone. exact IH. }
    by rewrite Hnil.
Qed.

Lemma getJobs_lists_witness :
  getJobs (js "done") storeAfterFinish = []
  /\ length (getJobs [] storeAfterFinish) = size storeAfterFinish.
Proof.
  destruct (getJobs_lists (js "done") storeAfterFinish
              (summaryOf (js "job-1") pythonJob)) as (_ & _ & Hlen & Hnone).
  split; [|exact Hlen].
  apply Hnone; [intros st; destruct st; vm_compute; discriminate | vm_compute; discriminate].
Defined.




(** ** More on [runJob] *)

Lemma strictEq_true_iff (a b : jsstring) : strictEq a b = true <-> a = b.
Proof. unfold strictEq. apply bool_decide_eq_true. Qed.

(** *** Provisioning, call by call *)

Lemma setupNetworkScenario_eq (w : world) (jobId : jsstring) (sc : scenarioConfig) :
  setupNetworkScenario w jobId sc
  = (attempt (DeleteProxy (proxyNameOf jobId));;
     call (CreateProxy (proxyNameOf jobId) (js "0.0.0.0:8666")
             (orElse (upstream sc) (JStr (js "httpbin.org:80"))))
          (createProxyResult w);;
     attachToxics w (requestedToxics sc);;
     mret (handleOf jobId)).
Proof.
  unfold setupNetworkScenario, requestedToxics, when, handleOf, proxyNameOf.
  destruct (truthy (networkLatencyMs sc)), (truthy (bandwidthKbps sc)),
    (truthy (timeoutMs sc)); cbn [app attachToxics toxicEvent fst snd];
    destruct (createProxyResult w), (addToxicResult w latency),
      (addToxicResult w bandwidth), (addToxicResult w timeout); reflexivity.
Qed.

(** Attaching stops at the first call that fails. *)
Lemma attachToxics_run (w : world) (l : list (toxicType * jsval)) :
  match snd (attachToxics w l) with
  | inr _ =>
      fst (attachToxics w l) = List.map toxicEvent l
      /\ Forall (fun t => addToxicResult w (fst t) = Ok) l
  | inl message =>
      exists before t rest,
        l = before ++ t :: rest
        /\ fst (attachToxics w l) = List.map toxicEvent (before ++ [t])
        /\ Forall (fun t => addToxicResult w (fst t) = Ok) before
        /\ addToxicResult w (fst t) = Err message
  end.
Proof.
  induction l as [|t l IH]; [done|].
  cbn [attachToxics]. unfold call at 1.
  destruct (addToxicResult w (fst t)) eqn:Ht; cbn.
  - destruct (attachToxics w l) as [tr [message|[]]]; cbn in *.
    + destruct IH as (before & t' & rest & -> & -> & Hb & Hf).
      exists (t :: before), t', rest.
      split; [done|]. split; [done|]. split; [by constructor | done].
    + destruct IH as [-> Hall]. split; [done | by constructor].
  - exists [], t, l. by repeat split.
Qed.

Lemma toxicsOf_toxicEvents (l : list (toxicType * jsval)) :
  toxicsOf (List.map toxicEvent l) = l.
Proof.
  unfold toxicsOf. induction l as [|[ty v] l IH]; [done|]. cbn. by rewrite IH.
Qed.

Lemma setupNetworkScenario_run (w : world) (jobId : jsstring) (sc : scenarioConfig) :
  setupNetworkScenario w jobId sc
  = match createProxyResult w with
    | Err message =>
        ([DeleteProxy (proxyNameOf jobId);
          CreateProxy (proxyNameOf jobId) (js "0.0.0.0:8666")
            (orElse (upstream sc) (JStr (js "httpbin.org:80")))],
         inl message)
    | Ok =>
        ([DeleteProxy (proxyNameOf jobId);
          CreateProxy (proxyNameOf jobId) (js "0.0.0.0:8666")
            (orElse (upstream sc) (JStr (js "httpbin.org:80")))]
         ++ fst (attachToxics w (requestedToxics sc)),
         match snd (attachToxics w (requestedToxics sc)) with
         | inl message => inl message
         | inr _ => inr (handleOf jobId)
         end)
    end.
Proof.
  rewrite setupNetworkScenario_eq. unfold attempt, call.
  destruct (createProxyResult w); [|reflexivity].
  destruct (attachToxics w (requestedToxics sc)) as [t [m|[]]]; cbn;
    by rewrite ?app_nil_r.
Qed.

(** X14: provisioning stops at the first call Toxiproxy refuses.  When the
    creation of the proxy fails no toxic is attached; otherwise the toxics
    are attached in the order latency, bandwidth, timeout up to the first
    one that fails, provisioning throws the message of that failure, and
    it returns the handle of the proxy only when every toxic asked for has
    been attached. *)
Theorem setupNetworkScenario_stops_at_failure (w : world) (jobId : jsstring)
    (sc : scenarioConfig) :
  let attached := toxicsOf (fst (setupNetworkScenario w jobId sc)) in
  match createProxyResult w, snd (setupNetworkScenario w jobId sc) with
  | Err message, thrown => attached = [] /\ thrown = inl message
  | Ok, inr handle =>
      attached = requestedToxics sc
      /\ Forall (fun t => addToxicResult w (fst t) = Ok) attached
      /\ handle = handleOf jobId
  | Ok, inl message =>
      exists before t rest,
        requestedToxics sc = before ++ t :: rest
        /\ attached = before ++ [t]
        /\ Forall (fun t => addToxicResult w (fst t) = Ok) before
        /\ addToxicResult w (fst t) = Err message
  end.
Proof.
  cbn zeta. rewrite setupNetworkScenario_run.
  destruct (createProxyResult w); [|done]. cbn [fst snd].
  pose proof (attachToxics_run w (requestedToxics sc)) as Hrun.
  destruct (snd (attachToxics w (requestedToxics sc))) as [message|[]].
  - destruct Hrun as (before & t & rest & Hreq & Htrace & Hb & Hf).
    exists before, t, rest. rewrite Htrace. cbn [app toxicsOf flat_map].
    fold (toxicsOf (List.map toxicEvent (before ++ [t]))).
    by rewrite toxicsOf_toxicEvents.
  - destruct Hrun as [Htrace Hall]. rewrite Htrace. cbn [app toxicsOf flat_map].
    fold (toxicsOf (List.map toxicEvent (requestedToxics sc))).
    by rewrite toxicsOf_toxicEvents.
Qed.

(** *** Steps 1-5, case by case *)

Lemma prepareJob_run (rt : runtime) (w : world) (job : Job.t) :
  let written :=
    [TmpDirCreate;
     WriteFile (codeFileOf (Job.language job))
       (wrapUserCode rt (Job.code job) (Job.scenario job) (Job.language job))] in
  prepareJob rt w job
  = if isPython (Job.language job) || isNode (Job.language job) then
      match writeFileResult w with
      | Err message => (written, inl message)
      | Ok =>
          if wantsProxy (Job.scenario job) then
            (written ++ fst (setupNetworkScenario w (Job.id job) (Job.scenario job)),
             match snd (setupNetworkScenario w (Job.id job) (Job.scenario job)) with
             | inl message => inl message
             | inr _ => inr (planOf job true)
             end)
          else (written, inr (planOf job false))
      end
    else ([TmpDirCreate], inl (js "Unsupported language")).
Proof.
  cbn zeta. unfold prepareJob, codeFileOf, planOf.
  destruct (isPython (Job.language job)) eqn:Hpy;
    [|destruct (isNode (Job.language job)) eqn:Hnode]; cbn [orb]; [| |reflexivity];
    (destruct (writeFileResult w); [|reflexivity]);
    (destruct (wantsProxy (Job.scenario job)); [|reflexivity]);
    rewrite setupNetworkScenario_run;
    (destruct (createProxyResult w); [|reflexivity]);
    destruct (attachToxics w (requestedToxics (Job.scenario job))) as [t [m|[]]];
    first [ reflexivity
          | cbn -[wrapUserCode js intText]; rewrite ?app_nil_r;
            change (intText 8666) with (js "8666");
            repeat f_equal ].
Qed.

(** The trace of step 6 around its one container. *)
Lemma runContainer_run (w : world) (plan : launchPlan) :
  exists rest,
    fst (runContainer w plan) = CreateContainer (containerOptionsOf w plan) :: rest
    /\ List.filter isCreateContainer rest = []
    /\ List.filter isFileWrite rest = []
    /\ List.filter isProxyCreate rest = [].
Proof.
  runContainer_cases w plan ltac:(by eexists).
Qed.

Lemma attachToxics_events (w : world) (l : list (toxicType * jsval)) (p : event -> bool) :
  (forall ty v, p (AddToxic ty v) = false) ->
  List.filter p (fst (attachToxics w l)) = [].
Proof.
  intros Hp. induction l as [|t l IH]; [done|].
  cbn [attachToxics]. unfold call at 1.
  destruct (addToxicResult w (fst t)); cbn.
  - destruct (attachToxics w l) as [tr [m|[]]]; cbn in *;
      unfold toxicEvent; by rewrite Hp.
  - unfold toxicEvent. by rewrite Hp.
Qed.

(** X15: [runJob] writes at most one file, and it is the code of the job
    with the fragments of the scenario around it, under the name
    usercode.py for Python and usercode.js for JavaScript. *)
Theorem runJob_writes_wrapped_code (rt : runtime) (w : world) (job : Job.t)
    (file content : jsstring) :
  In (WriteFile file content) (fst (runJob rt w job)) ->
  content = wrapUserCode rt (Job.code job) (Job.scenario job) (Job.language job)
  /\ (Job.language job = js "python" /\ file = js "usercode.py"
      \/ (Job.language job = js "javascript" \/ Job.language job = js "node")
         /\ file = js "usercode.js")
  /\ count isFileWrite (fst (runJob rt w job)) = 1%nat.
Proof.
  intros Hin.
  assert (Hfilter :
    List.filter isFileWrite (fst (runJob rt w job))
    = if isPython (Job.language job) || isNode (Job.language job)
      then [WriteFile (codeFileOf (Job.language job))
              (wrapUserCode rt (Job.code job) (Job.scenario job) (Job.language job))]
      else []).
  { unfold runJob. rewrite prepareJob_run.
    destruct (isPython (Job.language job) || isNode (Job.language job)); [|done].
    assert (Hsetup : List.filter isFileWrite
              (fst (setupNetworkScenario w (Job.id job) (Job.scenario job))) = []).
    { rewrite setupNetworkScenario_run. destruct (createProxyResult w); [|done].
      cbn [fst]. rewrite List.filter_app. by rewrite attachToxics_events. }
    destruct (writeFileResult w); [|done].
    destruct (wantsProxy (Job.scenario job)).
    - destruct (snd (setupNetworkScenario w (Job.id job) (Job.scenario job)))
        as [m|net].
      + cbn [fst]. rewrite List.filter_app, Hsetup. done.
      + destruct (runContainer_run w (planOf job true)) as (rest & Hrun & _ & Hw & _).
        destruct (runContainer w (planOf job true)) as [t' p]. cbn [fst] in *.
        rewrite !List.filter_app, Hsetup, Hrun. cbn. by rewrite Hw.
    - destruct (runContainer_run w (planOf job false)) as (rest & Hrun & _ & Hw & _).
      destruct (runContainer w (planOf job false)) as [t' p]. cbn [fst] in *.
      rewrite List.filter_app, Hrun. cbn. by rewrite Hw. }
  assert (Hin' : In (WriteFile file content) (List.filter isFileWrite (fst (runJob rt w job))))
    by (apply filter_In; by split).
  unfold count. rewrite Hfilter in *.
  destruct (isPython (Job.language job)) eqn:Hpy;
    [|destruct (isNode (Job.language job)) eqn:Hnode]; cbn [orb] in *; [| |done].
  - destruct Hin' as [[= <- <-]|[]]. split; [done|]. split; [|done].
    left. split; [by apply strictEq_true_iff | unfold codeFileOf; by rewrite Hpy].
  - destruct Hin' as [[= <- <-]|[]]. split; [done|]. split; [|done].
    right. split; [|unfold codeFileOf; by rewrite Hpy].
    unfold isNode in Hnode. apply orb_true_iff in Hnode as [H|H];
      apply strictEq_true_iff in H; tauto.
Qed.

Lemma runJob_writes_wrapped_code_witness :
  js "import time~print(^Simulating artificial delay...^)~time.sleep(2)~print(^Simulating memory leak...^)~_leak = []~for _ in range(10**7):~    _leak.append('leak')~print(1+1)"
  = wrapUserCode exampleRuntime (js "print(1+1)")
      {| networkLatencyMs := JUndefined; bandwidthKbps := JUndefined;
         timeoutMs := JUndefined; upstream := JUndefined;
         simulateCrash := JBool false; simulateHighCpu := JBool false;
         simulateMemoryLeak := JBool true; artificialDelayMs := JNum (2000 # 1) |}
      (js "python").
Proof.
  eapply (runJob_writes_wrapped_code exampleRuntime calmWorld
            (jobOf (js "python") (js "print(1+1)")
               {| networkLatencyMs := JUndefined; bandwidthKbps := JUndefined;
                  timeoutMs := JUndefined; upstream := JUndefined;
                  simulateCrash := JBool false; simulateHighCpu := JBool false;
                  simulateMemoryLeak := JBool true; artificialDelayMs := JNum (2000 # 1) |})
            (js "usercode.py")).
  vm_compute. right. left. reflexivity.
Defined.

(** *** The trace of [runJob] in two parts *)

Lemma runJob_trace (rt : runtime) (w : world) (job : Job.t) :
  fst (runJob rt w job)
  = fst (prepareJob rt w job)
    ++ match snd (prepareJob rt w job) with
       | inl _ => []
       | inr plan => fst (runContainer w plan)
       end.
Proof.
  unfold runJob. destruct (prepareJob rt w job) as [t [e|plan]]; cbn [fst snd].
  - by rewrite app_nil_r.
  - by destruct (runContainer w plan).
Qed.

Lemma runJob_result (rt : runtime) (w : world) (job : Job.t) :
  snd (runJob rt w job)
  = match snd (prepareJob rt w job) with
    | inl message => Some (Rejected message)
    | inr plan => snd (runContainer w plan)
    end.
Proof.
  unfold runJob. destruct (prepareJob rt w job) as [t [e|plan]]; cbn [fst snd]; [done|].
  by destruct (runContainer w plan).
Qed.

(** When steps 1-5 complete, they have this plan. *)
Lemma prepareJob_plan (rt : runtime) (w : world) (job : Job.t) (plan : launchPlan) :
  snd (prepareJob rt w job) = inr plan ->
  plan = planOf job (wantsProxy (Job.scenario job))
  /\ isPython (Job.language job) || isNode (Job.language job) = true
  /\ writeFileResult w = Ok.
Proof.
  rewrite prepareJob_run. cbn zeta.
  destruct (isPython (Job.language job) || isNode (Job.language job)); [|done].
  destruct (writeFileResult w); [|done].
  destruct (wantsProxy (Job.scenario job)); cbn [snd].
  - destruct (snd (setupNetworkScenario w (Job.id job) (Job.scenario job))); [done|].
    by intros [= <-].
  - by intros [= <-].
Qed.

Lemma setupNetworkScenario_events (w : world) (jobId : jsstring) (sc : scenarioConfig)
    (p : event -> bool) :
  (forall ty v, p (AddToxic ty v) = false) ->
  List.filter p (fst (setupNetworkScenario w jobId sc))
  = List.filter p
      [DeleteProxy (proxyNameOf jobId);
       CreateProxy (proxyNameOf jobId) (js "0.0.0.0:8666")
         (orElse (upstream sc) (JStr (js "httpbin.org:80")))].
Proof.
  intros Hp. rewrite setupNetworkScenario_run. destruct (createProxyResult w); [|done].
  cbn [fst]. by rewrite List.filter_app, (attachToxics_events w _ p Hp), app_nil_r.
Qed.

Lemma prepareJob_events (rt : runtime) (w : world) (job : Job.t) (p : event -> bool) :
  p TmpDirCreate = false ->
  (forall file content, p (WriteFile file content) = false) ->
  (forall ty v, p (AddToxic ty v) = false) ->
  List.filter p (fst (prepareJob rt w job))
  = if (isPython (Job.language job) || isNode (Job.language job))
       && isOk (writeFileResult w) && wantsProxy (Job.scenario job)
    then List.filter p
           [DeleteProxy (proxyNameOf (Job.id job));
            CreateProxy (proxyNameOf (Job.id job)) (js "0.0.0.0:8666")
              (orElse (upstream (Job.scenario job)) (JStr (js "httpbin.org:80")))]
    else [].
Proof.
  intros Htmp Hwrite Htoxic. rewrite prepareJob_run. cbn zeta.
  destruct (isPython (Job.language job) || isNode (Job.language job)); cbn [andb];
    [|cbn; by rewrite Htmp].
  destruct (writeFileResult w); cbn [isOk andb]; [|cbn; by rewrite Htmp, Hwrite].
  destruct (wantsProxy (Job.scenario job)); cbn [fst]; [|cbn; by rewrite Htmp, Hwrite].
  rewrite List.filter_app, (setupNetworkScenario_events w _ _ p Htoxic).
  cbn [List.filter]. by rewrite Htmp, Hwrite.
Qed.

(** X16: [runJob] creates at most one container, and always with the same
    limits: the image and command of the language, the temporary directory
    bound read-only at /code, automatic removal, 128 MiB of memory and half
    a CPU; its environment holds the two proxy variables exactly when the
    scenario asked for a proxy. *)
Theorem runJob_container_options (rt : runtime) (w : world) (job : Job.t)
    (options : containerOptions) :
  In (CreateContainer options) (fst (runJob rt w job)) ->
  count isCreateContainer (fst (runJob rt w job)) = 1%nat
  /\ (Image options, Cmd options)
     = (if isPython (Job.language job)
        then (js "python-sandbox:latest", [js "python"; js "/code/usercode.py"])
        else (js "node:20-slim", [js "node"; js "/code/usercode.js"]))
  /\ Env options
     = (if wantsProxy (Job.scenario job)
        then [js "HTTP_PROXY=http://host.docker.internal:8666";
              js "HTTPS_PROXY=http://host.docker.internal:8666"]
        else [])
  /\ Binds options = [tmpName w ++ js ":/code:ro"]
  /\ AutoRemove options = true
  /\ Memory options = 134217728
  /\ CpuPeriod options = 100000
  /\ CpuQuota options = 50000.
Proof.
  intros Hin.
  assert (Hin' : In (CreateContainer options)
                   (List.filter isCreateContainer (fst (runJob rt w job))))
    by (apply filter_In; by split).
  unfold count. rewrite runJob_trace, List.filter_app in *.
  rewrite (prepareJob_events rt w job isCreateContainer) in * by done.
  assert (Hnone : (if (isPython (Job.language job) || isNode (Job.language job))
                      && isOk (writeFileResult w) && wantsProxy (Job.scenario job)
                   then List.filter isCreateContainer
                          [DeleteProxy (proxyNameOf (Job.id job));
                           CreateProxy (proxyNameOf (Job.id job)) (js "0.0.0.0:8666")
                             (orElse (upstream (Job.scenario job))
                                (JStr (js "httpbin.org:80")))]
                   else []) = []) by (by destruct (_ && _ && _)).
  rewrite Hnone in *. cbn [app] in *.
  destruct (snd (prepareJob rt w job)) as [e|plan] eqn:Hprep; [done|].
  apply prepareJob_plan in Hprep as (-> & _ & _).
  destruct (runContainer_run w (planOf job (wantsProxy (Job.scenario job))))
    as (rest & Hrun & Hc & _).
  rewrite Hrun in *. cbn [List.filter isCreateContainer] in *. rewrite Hc in *.
  destruct Hin' as [[= <-]|[]]. split; [done|].
  unfold containerOptionsOf, planOf; cbn.
  split; [by destruct (isPython (Job.language job))|].
  split; [by destruct (wantsProxy (Job.scenario job))|]. done.
Qed.

Lemma runJob_container_options_witness :
  Env {| Image := js "python-sandbox:latest";
         Cmd := [js "python"; js "/code/usercode.py"];
         Env := [js "HTTP_PROXY=http://host.docker.internal:8666";
                 js "HTTPS_PROXY=http://host.docker.internal:8666"];
         Binds := [js "/tmp/tmp-4242:/code:ro"];
         AutoRemove := true; Memory := 134217728; CpuPeriod := 100000; CpuQuota := 50000 |}
  = (if wantsProxy slowNetScenario
     then [js "HTTP_PROXY=http://host.docker.internal:8666";
           js "HTTPS_PROXY=http://host.docker.internal:8666"]
     else []).
Proof.
  eapply (runJob_container_options exampleRuntime calmWorld slowNetJob).
  vm_compute. do 6 right. left. reflexivity.
Defined.

(** *** When steps 1-5 go through *)

Lemma attachToxics_ok (w : world) (l : list (toxicType * jsval)) :
  match snd (attachToxics w l) with
  | inr _ => forallb (fun t => isOk (addToxicResult w (fst t))) l = true
  | inl _ => forallb (fun t => isOk (addToxicResult w (fst t))) l = false
  end.
Proof.
  induction l as [|t l IH]; [done|].
  cbn [attachToxics forallb]. unfold call at 1.
  destruct (addToxicResult w (fst t)); cbn; [|done].
  by destruct (attachToxics w l) as [tr [m|[]]].
Qed.

Lemma prepareJob_prepared (rt : runtime) (w : world) (job : Job.t) :
  match snd (prepareJob rt w job) with
  | inr plan => prepared w job = true /\ plan = planOf job (wantsProxy (Job.scenario job))
  | inl _ => prepared w job = false
  end.
Proof.
  rewrite prepareJob_run. cbn zeta. unfold prepared.
  destruct (isPython (Job.language job) || isNode (Job.language job)); [|done].
  destruct (writeFileResult w); [|done].
  destruct (wantsProxy (Job.scenario job)); [|done]. cbn [snd andb orb negb isOk].
  rewrite setupNetworkScenario_run. destruct (createProxyResult w); [|done].
  cbn [snd andb isOk].
  pose proof (attachToxics_ok w (requestedToxics (Job.scenario job))) as Hok.
  by destruct (snd (attachToxics w (requestedToxics (Job.scenario job)))).
Qed.

Lemma prepared_plan (rt : runtime) (w : world) (job : Job.t) :
  prepared w job = true ->
  snd (prepareJob rt w job) = inr (planOf job (wantsProxy (Job.scenario job))).
Proof.
  intros Hp. pose proof (prepareJob_prepared rt w job) as H.
  destruct (snd (prepareJob rt w job)); [congruence|]. by destruct H as [_ ->].
Qed.

Lemma not_prepared_throws (rt : runtime) (w : world) (job : Job.t) :
  prepared w job = false -> exists message, snd (prepareJob rt w job) = inl message.
Proof.
  intros Hp. pose proof (prepareJob_prepared rt w job) as H.
  destruct (snd (prepareJob rt w job)); [by eexists|]. destruct H; congruence.
Qed.

(** *** The Toxiproxy calls of a run *)

Lemma attachToxics_proxy_calls (w : world) (l : list (toxicType * jsval)) :
  List.filter isProxyEvent (fst (attachToxics w l)) = fst (attachToxics w l).
Proof.
  induction l as [|t l IH]; [done|].
  cbn [attachToxics]. unfold call at 1.
  destruct (addToxicResult w (fst t)); cbn; [|done].
  destruct (attachToxics w l) as [tr [m|[]]]; cbn in *; by rewrite IH.
Qed.

Lemma setupNetworkScenario_proxy_calls (w : world) (jobId : jsstring) (sc : scenarioConfig) :
  List.filter isProxyEvent (fst (setupNetworkScenario w jobId sc))
  = fst (setupNetworkScenario w jobId sc).
Proof.
  rewrite setupNetworkScenario_run. destruct (createProxyResult w); [|done].
  cbn [fst]. rewrite List.filter_app, attachToxics_proxy_calls. done.
Qed.

Lemma runContainer_proxy_calls (w : world) (plan : launchPlan) :
  List.filter isProxyEvent (fst (runContainer w plan))
  = if reachesFinally w && isOk (removeCallbackResult w)
    then match planProxyName plan with
         | Some name => [DeleteProxy name]
         | None => []
         end
    else [].
Proof.
  unfold reachesFinally, launched.
  runContainer_cases w plan ltac:(reflexivity).
Qed.

(** X17: the calls [runJob] makes on Toxiproxy.  A job whose language is
    not recognized, whose file cannot be written or whose scenario asks for
    no proxy makes none.  Otherwise the calls are those of provisioning,
    followed by one more, the deletion of the proxy of the job, exactly
    when provisioning went through, the [finally] block is reached (the
    launch fails, or the main flow resumes after [wait()]) and
    [removeCallback] returned.  A proxy whose provisioning failed half way,
    whose container never exits, whose kill is refused before [wait()]
    settles, or whose temporary directory could not be removed, is left
    behind. *)
Theorem runJob_toxiproxy_calls (rt : runtime) (w : world) (job : Job.t) :
  let calls := List.filter isProxyEvent (fst (runJob rt w job)) in
  let provisioning := fst (setupNetworkScenario w (Job.id job) (Job.scenario job)) in
  if (isPython (Job.language job) || isNode (Job.language job))
     && isOk (writeFileResult w) && wantsProxy (Job.scenario job)
  then calls
       = provisioning
         ++ (if prepared w job && reachesFinally w && isOk (removeCallbackResult w)
             then [DeleteProxy (proxyNameOf (Job.id job))] else [])
  else calls = [].
Proof.
  cbn zeta. rewrite runJob_trace, List.filter_app.
  pose proof (prepareJob_prepared rt w job) as Hprep.
  assert (Hpre : List.filter isProxyEvent (fst (prepareJob rt w job))
                 = if (isPython (Job.language job) || isNode (Job.language job))
                      && isOk (writeFileResult w) && wantsProxy (Job.scenario job)
                   then fst (setupNetworkScenario w (Job.id job) (Job.scenario job))
                   else []).
  { rewrite prepareJob_run. cbn zeta.
    destruct (isPython (Job.language job) || isNode (Job.language job)); [|done].
    destruct (writeFileResult w); [|done].
    destruct (wantsProxy (Job.scenario job)); [|done].
    cbn [fst andb isOk]. rewrite List.filter_app, setupNetworkScenario_proxy_calls. done. }
  rewrite Hpre.
  destruct (snd (prepareJob rt w job)) as [message|plan].
  - rewrite Hprep. cbn [andb]. rewrite !app_nil_r. by destruct (_ && _ && _).
  - destruct Hprep as [Hp ->]. rewrite runContainer_proxy_calls, Hp. cbn [andb].
    unfold prepared in Hp. apply andb_true_iff in Hp as [Hfirst _]. rewrite Hfirst.
    cbn [andb].
    destruct (wantsProxy (Job.scenario job)); cbn [planOf planProxyName app];
      by destruct (reachesFinally w && isOk (removeCallbackResult w)).
Qed.

(** *** The proxy of a job *)

Lemma In_filter_iff (p : event -> bool) (e : event) (t : list event) :
  p e = true -> (In e t <-> In e (List.filter p t)).
Proof. intros Hp. rewrite filter_In. tauto. Qed.

Lemma proxyNameOf_inj (a b : jsstring) : proxyNameOf a = proxyNameOf b -> a = b.
Proof. unfold proxyNameOf. apply app_inv_head. Qed.

Lemma runJob_proxy_created (rt : runtime) (w : world) (job : Job.t)
    (name listen : jsstring) (up : jsval) :
  In (CreateProxy name listen up) (fst (runJob rt w job)) ->
  name = proxyNameOf (Job.id job) /\ listen = js "0.0.0.0:8666"
  /\ up = orElse (upstream (Job.scenario job)) (JStr (js "httpbin.org:80")).
Proof.
  rewrite (In_filter_iff isProxyCreate) by done.
  rewrite runJob_trace, List.filter_app.
  rewrite (prepareJob_events rt w job isProxyCreate) by done.
  assert (Hrest : List.filter isProxyCreate
                    match snd (prepareJob rt w job) with
                    | inl _ => []
                    | inr plan => fst (runContainer w plan)
                    end = []).
  { destruct (snd (prepareJob rt w job)) as [m|plan]; [done|].
    destruct (runContainer_run w plan) as (rest & -> & _ & _ & Hnone). by cbn. }
  rewrite Hrest, app_nil_r.
  destruct (_ && _ && _); [|done]. cbn. by intros [[= <- <- <-]|[]].
Qed.

(** X18: every proxy [runJob] creates listens on the same address,
    0.0.0.0:8666, whatever the job; only the names differ, and they differ
    exactly when the ids of the jobs do.  Two jobs with a network scenario
    therefore ask Toxiproxy for the same port. *)
Theorem runJob_proxies_share_port (rt1 rt2 : runtime) (w1 w2 : world) (job1 job2 : Job.t)
    (name1 listen1 name2 listen2 : jsstring) (up1 up2 : jsval) :
  In (CreateProxy name1 listen1 up1) (fst (runJob rt1 w1 job1)) ->
  In (CreateProxy name2 listen2 up2) (fst (runJob rt2 w2 job2)) ->
  listen1 = js "0.0.0.0:8666" /\ listen2 = listen1
  /\ (name1 = name2 <-> Job.id job1 = Job.id job2).
Proof.
  intros (-> & -> & _)%runJob_proxy_created (-> & -> & _)%runJob_proxy_created.
  split; [done|]. split; [done|]. split; [apply proxyNameOf_inj | by intros ->].
Qed.

Lemma runJob_proxies_share_port_witness :
  In (CreateProxy (js "sandbox_proxy_job-1") (js "0.0.0.0:8666") (JStr (js "httpbin.org:80")))
    (fst (runJob exampleRuntime calmWorld slowNetJob))
  /\ In (CreateProxy (js "sandbox_proxy_job-2") (js "0.0.0.0:8666") (JStr (js "example.org:80")))
       (fst (runJob exampleRuntime calmWorld upstreamJob))
  /\ js "sandbox_proxy_job-1" <> js "sandbox_proxy_job-2".
Proof.
  assert (H1 : In (CreateProxy (js "sandbox_proxy_job-1") (js "0.0.0.0:8666")
                     (JStr (js "httpbin.org:80")))
                 (fst (runJob exampleRuntime calmWorld slowNetJob)))
    by (vm_compute; do 3 right; left; reflexivity).
  assert (H2 : In (CreateProxy (js "sandbox_proxy_job-2") (js "0.0.0.0:8666")
                     (JStr (js "example.org:80")))
                 (fst (runJob exampleRuntime calmWorld upstreamJob)))
    by (vm_compute; do 3 right; left; reflexivity).
  split; [exact H1|]. split; [exact H2|].
  destruct (runJob_proxies_share_port _ _ _ _ _ _ _ _ _ _ _ _ H1 H2) as (_ & _ & Hnames).
  intros Hsame. apply Hnames in Hsame. vm_compute in Hsame. discriminate.
Defined.

(** *** How the promise settles *)

Lemma prepareJob_throws (rt : runtime) (w : world) (job : Job.t) (message : jsstring) :
  snd (prepareJob rt w job) = inl message ->
  isPython (Job.language job) || isNode (Job.language job) = false
    /\ message = js "Unsupported language"
  \/ writeFileResult w = Err message
  \/ wantsProxy (Job.scenario job) = true
     /\ (createProxyResult w = Err message
         \/ exists t, In t (requestedToxics (Job.scenario job))
                      /\ addToxicResult w (fst t) = Err message).
Proof.
  rewrite prepareJob_run. cbn zeta.
  destruct (isPython (Job.language job) || isNode (Job.language job));
    [|intros [= <-]; by left].
  destruct (writeFileResult w); [|intros [= <-]; right; by left].
  destruct (wantsProxy (Job.scenario job)); [|done].
  cbn [snd]. rewrite setupNetworkScenario_run.
  destruct (createProxyResult w); [|intros [= <-]; right; right; split; [done | by left]].
  cbn [snd]. pose proof (attachToxics_run w (requestedToxics (Job.scenario job))) as Hrun.
  destruct (snd (attachToxics w (requestedToxics (Job.scenario job)))) as [m|[]]; [|done].
  intros [= <-]. destruct Hrun as (before & t & rest & Hreq & _ & _ & Hfail).
  right. right. split; [done|]. right. exists t. split; [|done].
  rewrite Hreq, in_app_iff. right. by left.
Qed.

Lemma runContainer_resolved (w : world) (plan : launchPlan) (r : runResult) :
  snd (runContainer w plan) = Some (Resolved r) ->
  launched w = true
  /\ if success r
     then waitResolves (timing w) = true
          /\ In ClearTimeout (fst (runContainer w plan))
          /\ (output r = formatOutput (captured w)
              \/ output r = formatOutput (captured w ++ capturedLate w))
     else (exists wait, timing w = TimerThenKill Ok wait)
          /\ In Kill (fst (runContainer w plan))
          /\ output r = formatOutput (captured w ++ js "~[Timeout]").
Proof.
  unfold launched, waitResolves, runContainer, cleanupResources, cleanupNetworkScenario,
    onWait, onTimeout, moreData, settle.
  destruct (createContainerResult w), (attachResult w), (startResult w);
    cbn -[formatOutput js]; try discriminate;
    destruct (timing w) as [c|m k|k [wt|]|wt k]; try destruct wt; try destruct k;
    cbn -[formatOutput js]; try discriminate;
    intros [= <-]; cbn -[formatOutput js];
    (split; [reflexivity|]);
    repeat match goal with
           | |- _ /\ _ => split
           | |- exists _, _ => eexists
           | |- In _ _ => rewrite ?in_app_iff; cbn; tauto
           | |- _ = _ => reflexivity
           | |- _ \/ _ => solve [repeat first [left; reflexivity | right]; reflexivity]
           end.
Qed.

Lemma runContainer_rejected (w : world) (plan : launchPlan) (message : jsstring) :
  snd (runContainer w plan) = Some (Rejected message) ->
  createContainerResult w = Err message
  \/ createContainerResult w = Ok /\ attachResult w = Err message
  \/ createContainerResult w = Ok /\ attachResult w = Ok /\ startResult w = Err message
  \/ launched w = true /\ waitOf (timing w) = Some (WaitFailed message).
Proof.
  unfold launched, runContainer, cleanupResources, cleanupNetworkScenario,
    onWait, onTimeout, moreData, settle.
  destruct (createContainerResult w), (attachResult w), (startResult w);
    cbn -[formatOutput js]; try (intros [= <-]; tauto);
    destruct (timing w) as [c|m k|k [wt|]|wt k]; try destruct wt; try destruct k;
    cbn -[formatOutput js]; try discriminate;
    intros [= <-]; tauto.
Qed.

(** X19: what a resolved promise of [runJob] tells.  Steps 1-5 went
    through and the container was started.  With [success: true] the
    container exited, the timer was cleared, and the output is the
    formatted capture; with [success: false] the timer fired and its
    [kill()] returned before [wait()] settled, the container was killed,
    and the output is the formatted capture with the timeout mark
    appended.  The exit code of the program plays no part. *)
Theorem runJob_resolved (rt : runtime) (w : world) (job : Job.t) (r : runResult) :
  snd (runJob rt w job) = Some (Resolved r) ->
  prepared w job = true /\ launched w = true
  /\ if success r
     then waitResolves (timing w) = true
          /\ In ClearTimeout (fst (runJob rt w job))
          /\ (output r = formatOutput (captured w)
              \/ output r = formatOutput (captured w ++ capturedLate w))
     else (exists wait, timing w = TimerThenKill Ok wait)
          /\ In Kill (fst (runJob rt w job))
          /\ output r = formatOutput (captured w ++ js "~[Timeout]").
Proof.
  rewrite runJob_result, runJob_trace.
  pose proof (prepareJob_prepared rt w job) as Hprep.
  destruct (snd (prepareJob rt w job)) as [m|plan]; [done|].
  destruct Hprep as [Hp _]. intros Hres.
  apply runContainer_resolved in Hres as [Hl Hres].
  split; [done|]. split; [done|].
  destruct (success r).
  - destruct Hres as (? & ? & ?). rewrite in_app_iff. tauto.
  - destruct Hres as (? & ? & ?). rewrite in_app_iff. tauto.
Qed.

Lemma runJob_resolved_witness :
  prepared waitWinsWorld pythonJob = true /\ launched waitWinsWorld = true
  /\ waitResolves (timing waitWinsWorld) = true
  /\ In ClearTimeout (fst (runJob exampleRuntime waitWinsWorld pythonJob))
  /\ (js "tick" = formatOutput (captured waitWinsWorld)
      \/ js "tick" = formatOutput (captured waitWinsWorld ++ capturedLate waitWinsWorld)).
Proof.
  apply (runJob_resolved exampleRuntime waitWinsWorld pythonJob
           {| output := js "tick"; success := true |}).
  vm_compute. reflexivity.
Defined.

(** Where the message of a rejection comes from, steps 1 and 2 being taken
    not to throw. *)
Lemma runJob_rejection (rt : runtime) (w : world) (job : Job.t) (message : jsstring) :
  snd (runJob rt w job) = Some (Rejected message) ->
  isPython (Job.language job) || isNode (Job.language job) = false
    /\ message = js "Unsupported language"
  \/ writeFileResult w = Err message
  \/ wantsProxy (Job.scenario job) = true
     /\ (createProxyResult w = Err message
         \/ exists t, In t (requestedToxics (Job.scenario job))
                      /\ addToxicResult w (fst t) = Err message)
  \/ prepared w job = true
     /\ (createContainerResult w = Err message
         \/ createContainerResult w = Ok /\ attachResult w = Err message
         \/ createContainerResult w = Ok /\ attachResult w = Ok
            /\ startResult w = Err message
         \/ launched w = true /\ waitOf (timing w) = Some (WaitFailed message)).
Proof.
  rewrite runJob_result.
  pose proof (prepareJob_prepared rt w job) as Hprep.
  pose proof (prepareJob_throws rt w job) as Hthrow.
  destruct (snd (prepareJob rt w job)) as [m|plan].
  - intros [= <-]. specialize (Hthrow m eq_refl). tauto.
  - destruct Hprep as [Hp _]. intros Hrej%runContainer_rejected. tauto.
Qed.

(** X20: what a rejection of [runJob] tells once [fs.writeFile] has been
    called, that is, once steps 1-3 are behind.  Its message is the error
    of the call that failed among the write of the file, the creation of
    the proxy, a toxic the scenario asks for, the creation of the
    container, the attachment, the start and [wait()].  A failure of
    [kill()] or of [removeCallback] is never the rejection of [runJob]:
    nothing handles it and the process ends; the failure of a proxy
    deletion is swallowed. *)
Theorem runJob_rejected (rt : runtime) (w : world) (job : Job.t)
    (file content message : jsstring) :
  In (WriteFile file content) (fst (runJob rt w job)) ->
  snd (runJob rt w job) = Some (Rejected message) ->
  writeFileResult w = Err message
  \/ wantsProxy (Job.scenario job) = true
     /\ (createProxyResult w = Err message
         \/ exists t, In t (requestedToxics (Job.scenario job))
                      /\ addToxicResult w (fst t) = Err message)
  \/ prepared w job = true
     /\ (createContainerResult w = Err message
         \/ createContainerResult w = Ok /\ attachResult w = Err message
         \/ createContainerResult w = Ok /\ attachResult w = Ok
            /\ startResult w = Err message
         \/ launched w = true /\ waitOf (timing w) = Some (WaitFailed message)).
Proof.
  intros Hwritten Hrej.
  destruct (runJob_rejection rt w job message Hrej) as [[Hlang _]|Hcause]; [|exact Hcause].
  exfalso. revert Hwritten. rewrite runJob_trace, prepareJob_run. cbn zeta.
  rewrite Hlang. cbn. intros [[=]|[]].
Qed.

Lemma runJob_rejected_witness :
  writeFileResult brokenToxicWorld = Err (js "HTTP 400")
  \/ wantsProxy (Job.scenario slowNetJob) = true
     /\ (createProxyResult brokenToxicWorld = Err (js "HTTP 400")
         \/ exists t, In t (requestedToxics (Job.scenario slowNetJob))
                      /\ addToxicResult brokenToxicWorld (fst t) = Err (js "HTTP 400"))
  \/ prepared brokenToxicWorld slowNetJob = true
     /\ (createContainerResult brokenToxicWorld = Err (js "HTTP 400")
         \/ createContainerResult brokenToxicWorld = Ok
            /\ attachResult brokenToxicWorld = Err (js "HTTP 400")
         \/ createContainerResult brokenToxicWorld = Ok /\ attachResult brokenToxicWorld = Ok
            /\ startResult brokenToxicWorld = Err (js "HTTP 400")
         \/ launched brokenToxicWorld = true
            /\ waitOf (timing brokenToxicWorld) = Some (WaitFailed (js "HTTP 400"))).
Proof.
  apply (runJob_rejected exampleRuntime brokenToxicWorld slowNetJob
           (js "usercode.py") (js "print(1+1)") (js "HTTP 400")).
  - vm_compute. right. left. reflexivity.
  - vm_compute. reflexivity.
Defined.

(** *** The timer and the kill *)

Lemma runContainer_timer (w : world) (plan : launchPlan) :
  List.filter isKill (fst (runContainer w plan))
  = (if launched w && timerFires w then [Kill] else [])
  /\ List.filter isTimerEvent (fst (runContainer w plan))
     = (if launched w
        then SetTimeout 10000 :: (if waitResolves (timing w) then [ClearTimeout] else [])
        else []).
Proof.
  unfold launched, waitResolves, timerFires.
  runContainer_cases w plan ltac:(split; reflexivity).
Qed.

Lemma runContainer_exit (w : world) (plan : launchPlan) :
  List.filter isProcessExit (fst (runContainer w plan))
  = (if endsProcess w then [ProcessExit] else [])
  /\ (endsProcess w = true -> last (fst (runContainer w plan)) = Some ProcessExit).
Proof.
  unfold endsProcess, reachesFinally, launched.
  runContainer_cases w plan ltac:(split; [reflexivity | first [discriminate | reflexivity]]).
Qed.

Lemma prepareJob_no_cleanup (rt : runtime) (w : world) (job : Job.t) (p : event -> bool) :
  p TmpDirCreate = false ->
  (forall file content, p (WriteFile file content) = false) ->
  (forall name, p (DeleteProxy name) = false) ->
  (forall name listen up, p (CreateProxy name listen up) = false) ->
  (forall ty v, p (AddToxic ty v) = false) ->
  List.filter p (fst (prepareJob rt w job)) = [].
Proof.
  intros Htmp Hwrite Hdelete Hcreate Htoxic.
  rewrite (prepareJob_events rt w job p Htmp Hwrite Htoxic).
  cbn [List.filter]. rewrite Hdelete, Hcreate. by destruct (_ && _ && _).
Qed.

(** X21: the container is killed exactly when steps 1-5 went through, it
    was started and the timer fired, and then once.  The timer is one of
    10 seconds, set once the container is started, and it is cleared
    exactly when the main flow resumes after a [wait()] that resolved, be
    it after the timer has fired: not when [wait()] rejects or stays
    pending, and not when a refused [kill()] has ended the process before
    [wait()] settled. *)
Theorem runJob_kill_iff_timer (rt : runtime) (w : world) (job : Job.t) :
  List.filter isKill (fst (runJob rt w job))
  = (if prepared w job && launched w && timerFires w then [Kill] else [])
  /\ List.filter isTimerEvent (fst (runJob rt w job))
     = (if prepared w job && launched w
        then SetTimeout 10000 :: (if waitResolves (timing w) then [ClearTimeout] else [])
        else []).
Proof.
  rewrite runJob_trace, !List.filter_app.
  rewrite (prepareJob_no_cleanup rt w job isKill), (prepareJob_no_cleanup rt w job isTimerEvent)
    by done.
  pose proof (prepareJob_prepared rt w job) as Hprep. cbn [app].
  destruct (snd (prepareJob rt w job)) as [m|plan].
  - by rewrite Hprep.
  - destruct Hprep as [-> _]. cbn [andb]. apply runContainer_timer.
Qed.

(** *** The finally block and the end of the process *)

(** X1: [runJob] removes the temporary directory of the job at most once,
    and it does so exactly when steps 1-5 went through and the [finally]
    block of step 6 is reached: the launch of the container fails, or the
    main flow resumes after [wait()].  The directory stays when one of
    steps 1-5 throws, when [wait()] stays pending, and when a refused
    [kill()] has ended the process before [wait()] settled. *)
Theorem runJob_cleanup_count (rt : runtime) (w : world) (job : Job.t) :
  count isTmpDirRemove (fst (runJob rt w job))
  = if prepared w job && reachesFinally w then 1%nat else 0%nat.
Proof.
  unfold count. rewrite runJob_trace, List.filter_app.
  rewrite (prepareJob_no_cleanup rt w job isTmpDirRemove) by done.
  pose proof (prepareJob_prepared rt w job) as Hprep. cbn [app].
  destruct (snd (prepareJob rt w job)) as [m|plan].
  - by rewrite Hprep.
  - destruct Hprep as [-> _]. rewrite runContainer_removes_tmpdir. cbn [andb].
    by destruct (reachesFinally w).
Qed.

(** X28: a run of [runJob] ends the server process, by a rejection that
    nothing handles, exactly when steps 1-5 went through and either the
    [finally] block is reached and [removeCallback] throws in it, or the
    container was started and the [kill()] of the timer's callback is
    refused; nothing is called after that.  The promise is then pending
    when the refusal came before [wait()] settled, and settled
    otherwise. *)
Theorem runJob_ends_process (rt : runtime) (w : world) (job : Job.t) :
  List.filter isProcessExit (fst (runJob rt w job))
  = (if prepared w job && endsProcess w then [ProcessExit] else [])
  /\ (prepared w job && endsProcess w = true ->
      last (fst (runJob rt w job)) = Some ProcessExit)
  /\ (snd (runJob rt w job) = None
      <-> prepared w job && launched w = true
          /\ exists message wait, timing w = TimerThenKill (Err message) wait).
Proof.
  rewrite runJob_trace, runJob_result, List.filter_app.
  rewrite (prepareJob_no_cleanup rt w job isProcessExit) by done.
  pose proof (prepareJob_prepared rt w job) as Hprep. cbn [app].
  destruct (snd (prepareJob rt w job)) as [m|plan].
  - rewrite Hprep. cbn [andb]. split; [done|]. split; [done|].
    split; [done | by intros [? _]].
  - destruct Hprep as [-> _]. cbn [andb].
    destruct (runContainer_exit w plan) as [Hfilter Hlast].
    split; [exact Hfilter|]. split.
    + intros Hends. rewrite last_app, (Hlast Hends). done.
    + clear Hfilter Hlast. unfold launched.
      runContainer_cases w plan
        ltac:(split; [ first [discriminate | intros _; split; [reflexivity | by do 2 eexists]]
                     | first [reflexivity | intros [? (? & ? & ?)]; discriminate] ]).
Qed.

(** *** Languages *)

Lemma wrapUserCode_language (rt : runtime) (code : jsstring) (sc : scenarioConfig)
    (l1 l2 : jsstring) :
  isPython l1 = isPython l2 -> isNode l1 = isNode l2 ->
  wrapUserCode rt code sc l1 = wrapUserCode rt code sc l2.
Proof. intros Hpy Hnode. unfold wrapUserCode. by rewrite Hpy, Hnode. Qed.

(** X22: the language of a job is read only through the two tests, for
    Python and for JavaScript: [runJob] does the same, call by call, for
    "javascript" and for "node", and so does [wrapUserCode]. *)
Theorem runJob_javascript_is_node (rt : runtime) (w : world) (job : Job.t) :
  runJob rt w (setLanguage (js "javascript") job) = runJob rt w (setLanguage (js "node") job)
  /\ forall code scenario,
       wrapUserCode rt code scenario (js "javascript")
       = wrapUserCode rt code scenario (js "node").
Proof.
  assert (Hwrap : forall code scenario,
             wrapUserCode rt code scenario (js "javascript")
             = wrapUserCode rt code scenario (js "node"))
    by (intros; by apply wrapUserCode_language).
  split; [|exact Hwrap].
  unfold runJob. rewrite !prepareJob_run. cbn zeta.
  cbn [setLanguage Job.language Job.code Job.scenario Job.id].
  rewrite Hwrap. reflexivity.
Qed.

(** ** formatOutput, what its result is like *)

Lemma trimStart_head (s : jsstring) (c : N) :
  head (trimStart s) = Some c -> isWhiteSpace c = false.
Proof.
  induction s as [|d s IH]; [done|].
  cbn [trimStart]. destruct (isWhiteSpace d) eqn:Hd; [done|]. by intros [= <-].
Qed.

Lemma trimEnd_head (s : jsstring) (c : N) :
  head s = Some c -> isWhiteSpace c = false -> head (trimEnd s) = Some c.
Proof.
  destruct s as [|d s]; [done|]. intros [= ->] Hc.
  rewrite trimEnd_cons. destruct (trimEnd s); [by rewrite Hc | done].
Qed.

Lemma trimEnd_head_inv (s : jsstring) (c : N) :
  head (trimEnd s) = Some c -> head s = Some c.
Proof.
  destruct s as [|d s]; [done|]. rewrite trimEnd_cons.
  destruct (trimEnd s); [by destruct (isWhiteSpace d) | done].
Qed.

Lemma trimEnd_last (s : jsstring) (c : N) :
  last (trimEnd s) = Some c -> isWhiteSpace c = false.
Proof.
  induction s as [|d s IH]; [done|].
  rewrite trimEnd_cons. destruct (trimEnd s) as [|e r].
  - destruct (isWhiteSpace d) eqn:Hd; [done|]. by intros [= <-].
  - exact IH.
Qed.

(** X23: the text [formatOutput] returns never holds one of the three
    control characters, neither starts nor ends with white space, and
    never holds an opening brace with the origin key after it and no
    closing brace. *)
Theorem formatOutput_clean (x : jsstring) :
  noControl (formatOutput x)
  /\ (forall c, head (formatOutput x) = Some c -> isWhiteSpace c = false)
  /\ (forall c, last (formatOutput x) = Some c -> isWhiteSpace c = false)
  /\ looksTruncated (formatOutput x) = false.
Proof.
  split; [apply formatOutput_noControl|]. unfold formatOutput, trim.
  split; [|split].
  - intros c Hc. apply trimEnd_head_inv in Hc. by apply trimStart_head in Hc.
  - apply trimEnd_last.
  - fold (trim (fixTruncatedJson (prependTimeoutNotice (collapseLogLines
            (stripPipWarnings (stripControl x)))))).
    rewrite looksTruncated_trim. apply fixTruncatedJson_settles.
Qed.

(** X24: on a text that, once its control characters are removed, holds no
    pip warning, no log prefix and no timeout mark, and that does not look
    like a truncated JSON object, [formatOutput] only removes the control
    characters and trims. *)
Theorem formatOutput_quiet_text (x : jsstring) :
  let s := stripControl x in
  includes s pipWarning = false ->
  includes s logPrefix = false ->
  includes s timeoutMark = false ->
  looksTruncated s = false ->
  formatOutput x = trim s.
Proof.
  intros s Hpip Hlog Hmark Hjson. unfold formatOutput. fold s.
  rewrite (stripPipWarnings_id _ Hpip), (collapseLogLines_id _ Hlog),
    (prependTimeoutNotice_id _ Hmark), fixTruncatedJson_eq, Hjson.
  reflexivity.
Qed.

Lemma formatOutput_quiet_text_witness :
  formatOutput (js "  {^a^: 1}~") = js "{^a^: 1}".
Proof.
  apply (formatOutput_quiet_text (js "  {^a^: 1}~")); vm_compute; reflexivity.
Defined.

(** *** The timeout notice *)

Lemma startsWith_app_l (a b p : jsstring) :
  startsWith a p = true -> startsWith (a ++ b) p = true.
Proof.
  revert a. induction p as [|x p IH]; intros a; [done|].
  destruct a as [|y a]; [done|]. cbn [app]. rewrite !startsWith_cons.
  intros [-> H]%andb_true_iff. by rewrite (IH a H).
Qed.

Lemma includes_app_l (a b p : jsstring) :
  includes a p = true -> includes (a ++ b) p = true.
Proof.
  induction a as [|c a IH].
  - cbn [includes]. rewrite orb_false_r. destruct p; [|done]. intros _.
    destruct b; reflexivity.
  - rewrite includes_cons. cbn [app]. rewrite includes_cons.
    intros [H|H]%orb_true_iff.
    + pose proof (startsWith_app_l (c :: a) b p H) as H'. cbn [app] in H'.
      by rewrite H'.
    + by rewrite (IH H), orb_true_r.
Qed.

Lemma startsWith_app_self (a b : jsstring) : startsWith (a ++ b) a = true.
Proof.
  induction a as [|c a IH]; [done|]. cbn [app]. by rewrite startsWith_cons, N.eqb_refl.
Qed.

(** A pattern cannot reach across a code unit it does not hold. *)
Lemma startsWith_app_stop (p a b : jsstring) (c : N) :
  ~ In c p -> startsWith (a ++ c :: b) p = true -> startsWith a p = true.
Proof.
  revert a. induction p as [|x p IH]; intros a Hc; [done|].
  destruct a as [|y a]; cbn [app]; rewrite !startsWith_cons.
  - intros [Hx _]%andb_true_iff. apply N.eqb_eq in Hx as ->. destruct Hc. by left.
  - intros [-> H]%andb_true_iff. cbn [andb]. apply IH; [|done].
    intros Hin. apply Hc. by right.
Qed.

Lemma includes_app_stop (p a b : jsstring) (c : N) :
  ~ In c p -> includes (c :: b) p = false ->
  includes (a ++ c :: b) p = true -> includes a p = true.
Proof.
  intros Hc Hb. induction a as [|y a IH]; cbn [app]; [congruence|].
  rewrite !includes_cons. intros [H|H]%orb_true_iff.
  - by rewrite (startsWith_app_stop p (y :: a) b c Hc H).
  - by rewrite (IH H), orb_true_r.
Qed.

Lemma beforeFirst_fromFirst (p s : jsstring) : beforeFirst p s ++ fromFirst p s = s.
Proof.
  induction s as [|c s IH]; cbn [beforeFirst fromFirst].
  - by destruct (startsWith [] p).
  - destruct (startsWith (c :: s) p); [done|]. cbn [app]. by rewrite IH.
Qed.

Lemma beforeFirst_app (c : N) (a s : jsstring) :
  ~ In c a -> beforeFirst [c] (a ++ s) = a ++ beforeFirst [c] s.
Proof.
  induction a as [|y a IH]; intros Hc; [done|].
  cbn [app beforeFirst]. rewrite startsWith_cons.
  destruct (N.eqb_spec c y) as [->|_]; [destruct Hc; by left|].
  cbn [andb]. rewrite IH; [done|]. intros Hin. apply Hc. by right.
Qed.

Lemma trimEnd_app (a b : jsstring) :
  trimEnd b <> [] -> trimEnd (a ++ b) = a ++ trimEnd b.
Proof.
  intros Hb. induction a as [|c a IH]; [done|].
  cbn [app]. rewrite trimEnd_cons, IH.
  destruct (a ++ trimEnd b) eqn:Hab; [|done].
  apply app_eq_nil in Hab as [_ Hab]. done.
Qed.

Lemma trim_notice (s p : jsstring) :
  endsSolid p = true -> includes s p = true ->
  startsWith (trim (timeoutNotice ++ s)) timeoutNotice = true.
Proof.
  intros Hp Hin. unfold trim.
  rewrite (trimStart_id (timeoutNotice ++ s)) by (right; reflexivity).
  rewrite trimEnd_app; [apply startsWith_app_self|].
  intros Hnil. rewrite <- (includes_trimEnd p s Hp), Hnil in Hin.
  by rewrite (includes_nil_l p (endsSolid_nonempty p Hp)) in Hin.
Qed.

(** X25: a text returned by [formatOutput] that holds the timeout mark
    starts with the notice "Execution timed out after 10 seconds."; the
    mark is never shown without the notice. *)
Theorem formatOutput_mark_has_notice (x : jsstring) :
  includes (formatOutput x) timeoutMark = true ->
  startsWith (formatOutput x) timeoutNotice = true.
Proof.
  unfold formatOutput.
  set (s := collapseLogLines (stripPipWarnings (stripControl x))).
  rewrite includes_trim by reflexivity.
  assert (Hbrace : ~ In 123%N timeoutMark)
    by (vm_compute; intuition discriminate).
  assert (Hnotice : ~ In 123%N timeoutNotice)
    by (vm_compute; intuition discriminate).
  rewrite fixTruncatedJson_eq.
  assert (Hpre : includes (prependTimeoutNotice s) timeoutMark = true ->
                 prependTimeoutNotice s = timeoutNotice ++ s
                 /\ includes s timeoutMark = true).
  { unfold prependTimeoutNotice. destruct (includes s timeoutMark) eqn:Hs; [done|].
    congruence. }
  destruct (looksTruncated (prependTimeoutNotice s)) eqn:Hjson.
  - intros Hin.
    apply (includes_app_stop timeoutMark _ _ 123%N Hbrace) in Hin; [|reflexivity].
    assert (Hall : includes (prependTimeoutNotice s) timeoutMark = true).
    { rewrite <- (beforeFirst_fromFirst (js "{") (prependTimeoutNotice s)).
      by apply includes_app_l. }
    destruct (Hpre Hall) as [-> _].
    change (js "{") with [123%N]. rewrite (beforeFirst_app _ _ _ Hnotice).
    rewrite <- app_assoc.
    apply (trim_notice _ (js "}")); [reflexivity|].
    by apply includes_app_r.
  - intros Hin. destruct (Hpre Hin) as [-> Hs].
    by apply (trim_notice _ timeoutMark).
Qed.

Lemma formatOutput_mark_has_notice_witness :
  startsWith (formatOutput (js "tick~~[Timeout]")) timeoutNotice = true.
Proof.
  apply (formatOutput_mark_has_notice (js "tick~~[Timeout]")). vm_compute. reflexivity.
Defined.

(** ** ScenarioSimulator *)

(** X26: over any sequence of [simulateScenario] calls on one object,
    Toxiproxy is started at most once, by the first call made while the
    flag is down, and before anything else is written; the flag is up from
    then on.  Each call whose argument has the key networkLatencyMs creates
    the same proxy (12345 to upstream_host:80) and adds the latency of the
    key, whatever its value, be it 0 or undefined; a call without the key
    creates nothing. *)
Theorem simulateScenario_starts_once (this : ScenarioSimulator.t)
    (configs : list (option jsval)) :
  ScenarioSimulator.simulateAll this configs
  = ({| ScenarioSimulator.toxiproxyRunning :=
          ScenarioSimulator.toxiproxyRunning this || negb (bool_decide (configs = [])) |},
     (if ScenarioSimulator.toxiproxyRunning this || bool_decide (configs = [])
      then [] else [ScenarioSimulator.ToxiproxyStarted])
     ++ ScenarioSimulator.proxyLines configs).
Proof.
  revert this. induction configs as [|c rest IH]; intros [running].
  - cbn. by rewrite !orb_true_r, orb_false_r.
  - cbn [ScenarioSimulator.simulateAll].
    assert (Hstep : ScenarioSimulator.simulateScenario
                      {| ScenarioSimulator.toxiproxyRunning := running |} c
                    = ({| ScenarioSimulator.toxiproxyRunning := true |},
                       (if running then [] else [ScenarioSimulator.ToxiproxyStarted])
                       ++ ScenarioSimulator.proxyLines [c])).
    { by destruct running, c. }
    rewrite Hstep, IH. cbn [ScenarioSimulator.toxiproxyRunning orb app].
    rewrite (bool_decide_eq_false_2 (c :: rest = [])) by done.
    rewrite orb_false_r, orb_true_r. cbn [negb].
    unfold ScenarioSimulator.proxyLines. cbn [flat_map].
    by rewrite app_nil_r, app_assoc.
Qed.

(** ** A run that times out, seen from the routes *)

(** X27: when the timer fires and the [kill()] it issues returns before
    [wait()] settles, which is the run [runJob] resolves with
    [success: false], and [removeCallback] does not throw, so that the
    process goes on, the job is filed as completed, not as failed: its
    record gets the formatted output of the capture with the mark, the time
    of the settling and the log line "Execution completed.", and the status
    route answers completed.  The [success] flag of [runJob] is read
    nowhere. *)
Theorem timed_out_job_is_completed (rt : runtime) (w : world) (now : Z)
    (jobId : jsstring) (jobs : jobStore) (job : Job.t) (wait : option waitOutcome) :
  jobs !! jobId = Some job ->
  prepared w job = true -> launched w = true ->
  timing w = TimerThenKill Ok wait ->
  removeCallbackResult w = Ok ->
  let jobs' := finishExecution rt w now jobId jobs in
  jobs' !! jobId
  = Some (logged now (js "Execution completed.")
            (setResult (ResultOutput (formatOutput (captured w ++ js "~[Timeout]")))
               (setCompletedAt now (setStatus completed job))))
  /\ getStatus jobId jobs'
     = Body {| summaryJobId := jobId; summaryStatus := completed;
               summaryCreatedAt := Job.createdAt job; summaryCompletedAt := Some now |}.
Proof.
  intros Hjob Hprep Hlaunch Htime _ jobs'.
  assert (Hres : snd (runJob rt w job)
                 = Some (Resolved {| output := formatOutput (captured w ++ js "~[Timeout]");
                                     success := false |})).
  { rewrite runJob_result, (prepared_plan rt w job Hprep).
    unfold launched in Hlaunch.
    apply andb_true_iff in Hlaunch as [[Hc Ha]%andb_true_iff Hs].
    unfold runContainer. rewrite Htime.
    destruct (createContainerResult w), (attachResult w), (startResult w); try done.
    by destruct wait as [[c|m]|]. }
  assert (Hrec : jobs' !! jobId
                 = Some (logged now (js "Execution completed.")
                           (setResult (ResultOutput
                                         (formatOutput (captured w ++ js "~[Timeout]")))
                              (setCompletedAt now (setStatus completed job))))).
  { unfold jobs'. rewrite (finishExecution_store rt w now jobId jobs job Hjob), Hres.
    cbn [output]. by rewrite lookup_insert_eq. }
  split; [exact Hrec|]. unfold getStatus. by rewrite Hrec.
Qed.

Lemma timed_out_job_is_completed_witness :
  getStatus (js "job-1")
    (finishExecution exampleRuntime (worldOf (TimerThenKill Ok (Some (Exited 137))) (js "tick~"))
       12000 (js "job-1") storeAfterRun)
  = Body {| summaryJobId := js "job-1"; summaryStatus := completed;
            summaryCreatedAt := 0; summaryCompletedAt := Some 12000 |}.
Proof.
  refine (proj2 (timed_out_job_is_completed exampleRuntime
                   (worldOf (TimerThenKill Ok (Some (Exited 137))) (js "tick~"))
                   12000 (js "job-1") storeAfterRun
                   {| Job.id := js "job-1"; Job.status := running;
                      Job.language := js "python"; Job.code := js "print(1+1)";
                      Job.scenario := emptyScenario;
                      Job.logs := [{| logTime := 0; logMessage := js "Job created and queued." |};
                                   {| logTime := 0; logMessage := js "Job execution started." |}];
                      Job.result := None; Job.createdAt := 0; Job.completedAt := None |}
                   (Some (Exited 137)) _ _ _ _ _)); vm_compute; reflexivity.
Defined.
